(** * IPE competencies updater: a shallow embedding in Rocq

    The development embeds the per-course assignment workflow
    ([ipe_process_orchestrator/assignment_flow.py]), the batch orchestrator
    ([ipe_process_orchestrator/orchestrator.py]) and, from the spec, the
    retrying API client whose source ([api_handler/api_calls.py]) is not part
    of the sources at hand.

    Python values that travel through the program (decoded JSON bodies,
    payload dicts, ids, pandas cells) are modelled by [json]; Python [str]
    values are lists of Unicode code points ([list Z]). *)

From Stdlib Require Import ZArith List String Ascii Bool Lia.
Import ListNotations.
Set Warnings "-register-all".
Open Scope Z_scope.

(* ================================================================== *)
(** ** Python values *)

(** Code points of an ASCII Rocq string literal. *)
Definition cp (s : string) : list Z :=
  map (fun c => Z.of_nat (nat_of_ascii c)) (list_ascii_of_string s).

(** A decoded JSON value, i.e. the Python object [json.loads] builds.
    Integers are Python [int]s; a float literal is kept as its exact
    decimal value [m * 10^e]; [JNaN] and [JInf] are the constants Python's
    decoder accepts. Objects keep insertion order with unique keys, as a
    Python [dict]. *)
Inductive json : Type :=
| JNull
| JBool (b : bool)
| JInt (z : Z)
| JFloat (m : Z) (e : Z)
| JNaN
| JInf (neg : bool)
| JStr (s : list Z)
| JArr (l : list json)
| JObj (kvs : list (list Z * json)).

Definition list_Z_eqb (a b : list Z) : bool :=
  if list_eq_dec Z.eq_dec a b then true else false.

(** [d[k] = v] on a dict built in insertion order: an existing key keeps
    its position and takes the new value. *)
Fixpoint dict_set (kvs : list (list Z * json)) (k : list Z) (v : json)
  : list (list Z * json) :=
  match kvs with
  | [] => [(k, v)]
  | (k', v') :: rest =>
      if list_Z_eqb k k' then (k, v) :: rest else (k', v') :: dict_set rest k v
  end.

Fixpoint dict_get (kvs : list (list Z * json)) (k : list Z) : option json :=
  match kvs with
  | [] => None
  | (k', v) :: rest => if list_Z_eqb k k' then Some v else dict_get rest k
  end.

(* ================================================================== *)
(** ** [json.loads]: CPython's decoder (the C scanner, strict mode) *)

Module JsonDecode.

Definition is_ws (c : Z) : bool :=
  (c =? 32) || (c =? 9) || (c =? 10) || (c =? 13).

Fixpoint skip_ws (s : list Z) : list Z :=
  match s with
  | c :: r => if is_ws c then skip_ws r else s
  | [] => []
  end.

Definition is_digit (c : Z) : bool := (48 <=? c) && (c <=? 57).

Definition hex_val (c : Z) : option Z :=
  if is_digit c then Some (c - 48)
  else if (97 <=? c) && (c <=? 102) then Some (c - 87)
  else if (65 <=? c) && (c <=? 70) then Some (c - 55)
  else None.

Definition hex4 (a b c d : Z) : option Z :=
  match hex_val a, hex_val b, hex_val c, hex_val d with
  | Some x, Some y, Some z, Some w => Some (((x * 16 + y) * 16 + z) * 16 + w)
  | _, _, _, _ => None
  end.

Definition is_high_surrogate (c : Z) : bool := (55296 <=? c) && (c <=? 56319).
Definition is_low_surrogate (c : Z) : bool := (56320 <=? c) && (c <=? 57343).

(** [scanstring]: the body of a string literal after its opening quote.
    Returns the decoded code points (reversed accumulator) and the rest. *)
Fixpoint scanstring (s : list Z) (acc : list Z) : option (list Z * list Z) :=
  match s with
  | [] => None
  | c :: r =>
      if c =? 34 then Some (rev acc, r)
      else if c =? 92 then
        match r with
        | e :: r1 =>
            if e =? 117 then
              match r1 with
              | a :: b :: c1 :: d :: r2 =>
                  match hex4 a b c1 d with
                  | None => None
                  | Some u =>
                      if is_high_surrogate u then
                        match r2 with
                        | 92 :: 117 :: a' :: b' :: c' :: d' :: r3 =>
                            match hex4 a' b' c' d' with
                            | None => None
                            | Some u2 =>
                                if is_low_surrogate u2 then
                                  scanstring r3
                                    (65536 + (u - 55296) * 1024 + (u2 - 56320) :: acc)
                                else scanstring r2 (u :: acc)
                            end
                        | _ => scanstring r2 (u :: acc)
                        end
                      else scanstring r2 (u :: acc)
                  end
              | _ => None
              end
            else if e =? 34 then scanstring r1 (34 :: acc)
            else if e =? 92 then scanstring r1 (92 :: acc)
            else if e =? 47 then scanstring r1 (47 :: acc)
            else if e =? 98 then scanstring r1 (8 :: acc)
            else if e =? 102 then scanstring r1 (12 :: acc)
            else if e =? 110 then scanstring r1 (10 :: acc)
            else if e =? 114 then scanstring r1 (13 :: acc)
            else if e =? 116 then scanstring r1 (9 :: acc)
            else None
        | [] => None
        end
      else if c <? 32 then None
      else scanstring r (c :: acc)
  end.

Fixpoint take_digits (s : list Z) : list Z * list Z :=
  match s with
  | c :: r =>
      if is_digit c then let (ds, r') := take_digits r in (c :: ds, r') else ([], s)
  | [] => ([], [])
  end.

Definition digits_value (ds : list Z) : Z :=
  fold_left (fun acc d => acc * 10 + (d - 48)) ds 0.

Fixpoint prefix (p s : list Z) : option (list Z) :=
  match p, s with
  | [], _ => Some s
  | a :: p', b :: s' => if a =? b then prefix p' s' else None
  | _ :: _, [] => None
  end.

(** [_match_number_unicode]: an optional minus, then [0] or a nonzero digit
    and more digits, then optionally a dot and digits, then optionally [e]
    or [E], a sign and digits; a fraction or exponent without digits is left
    unconsumed. *)
Definition match_number (s : list Z) : option (json * list Z) :=
  let '(neg, s1) := match s with 45 :: r => (true, r) | _ => (false, s) end in
  let int_part :=
    match s1 with
    | c :: r =>
        if c =? 48 then Some ([c], r)
        else if is_digit c then Some (take_digits s1)
        else None
    | [] => None
    end in
  match int_part with
  | None => None
  | Some (ids, s2) =>
      let '(frac, s3) :=
        match s2 with
        | 46 :: d :: r => if is_digit d then take_digits (d :: r) else ([], s2)
        | _ => ([], s2)
        end in
      let '(expo, s4) :=
        match s3 with
        | e :: r =>
            if (e =? 101) || (e =? 69) then
              let '(sgn, r1) :=
                match r with
                | 45 :: r' => (-1, r')
                | 43 :: r' => (1, r')
                | _ => (1, r)
                end in
              match take_digits r1 with
              | ([], _) => (None, s3)
              | (eds, r2) => (Some (sgn * digits_value eds), r2)
              end
            else (None, s3)
        | [] => (None, s3)
        end in
      let sign := if neg then -1 else 1 in
      match frac, expo with
      | [], None => Some (JInt (sign * digits_value ids), s4)
      | _, _ =>
          let m := sign * digits_value (ids ++ frac) in
          let e := (match expo with Some x => x | None => 0 end)
                   - Z.of_nat (List.length frac) in
          Some (JFloat m e, s4)
      end
  end.

(** [scan_once]: one value at the head of [s] (no leading whitespace).
    [fuel] bounds the nesting; [json_loads] gives one unit per character,
    and every nested call starts on a strictly shorter suffix. *)
Fixpoint scan_once (fuel : nat) (s : list Z) {struct fuel} : option (json * list Z) :=
  match fuel with
  | O => None
  | S f =>
      match s with
      | [] => None
      | c :: r =>
          if c =? 34 then
            match scanstring r [] with
            | Some (str, r') => Some (JStr str, r')
            | None => None
            end
          else if c =? 123 then
            match skip_ws r with
            | 125 :: r' => Some (JObj [], r')
            | r' => parse_object f [] r'
            end
          else if c =? 91 then
            match skip_ws r with
            | 93 :: r' => Some (JArr [], r')
            | r' => parse_array f [] r'
            end
          else
            match prefix (cp "null") s with Some r' => Some (JNull, r') | None =>
            match prefix (cp "true") s with Some r' => Some (JBool true, r') | None =>
            match prefix (cp "false") s with Some r' => Some (JBool false, r') | None =>
            match prefix (cp "NaN") s with Some r' => Some (JNaN, r') | None =>
            match prefix (cp "Infinity") s with Some r' => Some (JInf false, r') | None =>
            match prefix (cp "-Infinity") s with Some r' => Some (JInf true, r') | None =>
              match_number s
            end end end end end end
      end
  end
(** Members of an object, after [{] and whitespace, not at [}]. *)
with parse_object (fuel : nat) (acc : list (list Z * json)) (s : list Z) {struct fuel}
  : option (json * list Z) :=
  match fuel with
  | O => None
  | S f =>
      match s with
      | 34 :: r =>
          match scanstring r [] with
          | None => None
          | Some (k, r1) =>
              match skip_ws r1 with
              | 58 :: r2 =>
                  match scan_once f (skip_ws r2) with
                  | None => None
                  | Some (v, r3) =>
                      let acc' := dict_set acc k v in
                      match skip_ws r3 with
                      | 125 :: r4 => Some (JObj acc', r4)
                      | 44 :: r4 => parse_object f acc' (skip_ws r4)
                      | _ => None
                      end
                  end
              | _ => None
              end
          end
      | _ => None
      end
  end
(** Elements of an array, after [\[] and whitespace, not at [\]]. *)
with parse_array (fuel : nat) (acc : list json) (s : list Z) {struct fuel}
  : option (json * list Z) :=
  match fuel with
  | O => None
  | S f =>
      match scan_once f s with
      | None => None
      | Some (v, r) =>
          match skip_ws r with
          | 93 :: r' => Some (JArr (acc ++ [v]), r')
          | 44 :: r' => parse_array f (acc ++ [v]) (skip_ws r')
          | _ => None
          end
      end
  end.

End JsonDecode.

(** [json.loads(s)]; [None] stands for a [JSONDecodeError]. A leading
    byte-order mark is refused, whitespace may surround the value, and
    nothing else may follow it. *)
Definition json_loads (s : list Z) : option json :=
  match s with
  | 65279 :: _ => None
  | _ =>
      match JsonDecode.scan_once (S (List.length s)) (JsonDecode.skip_ws s) with
      | Some (v, r) =>
          match JsonDecode.skip_ws r with [] => Some v | _ => None end
      | None => None
      end
  end.

(** JSON text written with apostrophes for double quotes, for examples. *)
Definition jtext (s : string) : list Z :=
  map (fun c => if c =? 39 then 34 else c) (cp s).


(* ================================================================== *)
(** ** Python operations on values *)

(** Python exceptions raised along the modelled paths. [WorkflowError]
    is the error [response_none_check] raises; [SystemExit] is raised by
    [sys.exit] and is the only one here that is not an [Exception]. *)
Inductive piece : Type :=
| Lit (s : string)
| Fmt (v : json).

(** An f-string: literal text and interpolated values, in order. *)
Definition fstring := list piece.

Inductive exn : Type :=
| KeyError (k : json)
| TypeError
| AttributeError
| JSONDecodeError
| NameError (name : string)
| WorkflowError (msg : fstring)
| SystemExit (code : Z).

(** [isinstance(e, Exception)]. *)
Definition is_Exception (e : exn) : bool :=
  match e with SystemExit _ => false | _ => true end.

Inductive result (A : Type) : Type :=
| Ok (a : A)
| Exc (e : exn).
Arguments Ok {A} a.
Arguments Exc {A} e.

(** [for x in v]: a list yields its items, a dict its keys, a str its
    characters; other values are not iterable. *)
Definition py_iter (v : json) : result (list json) :=
  match v with
  | JArr l => Ok l
  | JObj kvs => Ok (map (fun kv => JStr (fst kv)) kvs)
  | JStr s => Ok (map (fun c => JStr [c]) s)
  | _ => Exc TypeError
  end.

(** [v[k]] for a str key [k]: only a dict accepts it. *)
Definition py_getitem (v : json) (k : list Z) : result json :=
  match v with
  | JObj kvs =>
      match dict_get kvs k with Some x => Ok x | None => Exc (KeyError (JStr k)) end
  | _ => Exc TypeError
  end.

(** [str.isspace] on one code point. *)
Definition py_isspace (c : Z) : bool :=
  ((9 <=? c) && (c <=? 13)) || ((28 <=? c) && (c <=? 32)) || (c =? 133)
  || (c =? 160) || (c =? 5760) || ((8192 <=? c) && (c <=? 8202))
  || (c =? 8232) || (c =? 8233) || (c =? 8239) || (c =? 8287) || (c =? 12288).

Fixpoint lstrip (s : list Z) : list Z :=
  match s with
  | c :: r => if py_isspace c then lstrip r else s
  | [] => []
  end.

(** [str.strip()] with no argument. *)
Definition str_strip (s : list Z) : list Z := rev (lstrip (rev (lstrip s))).

(** [v.strip()]: only a str has the method. *)
Definition py_strip (v : json) : result (list Z) :=
  match v with
  | JStr s => Ok (str_strip s)
  | _ => Exc AttributeError
  end.

(** [bool(v)]; a float is false when its decimal value is zero. *)
Definition py_truthy (v : json) : bool :=
  match v with
  | JNull => false
  | JBool b => b
  | JInt z => negb (z =? 0)
  | JFloat m _ => negb (m =? 0)
  | JNaN | JInf _ => true
  | JStr s => negb (Nat.eqb (List.length s) 0)
  | JArr l => negb (Nat.eqb (List.length l) 0)
  | JObj kvs => negb (Nat.eqb (List.length kvs) 0)
  end.


(* ================================================================== *)
(** ** HTTP requests, responses and the program state *)

Record response : Type := mk_response {
  status_code : Z;
  text : list Z
}.

(** One call of [api_call_with_retries(url, method, payload)];
    [payload] is [None] where the call passes none. *)
Record request : Type := mk_request {
  req_url : fstring;
  req_method : string;
  req_payload : option json
}.

Inductive log_entry : Type :=
| LogInfo (msg : fstring)
| LogError (prefix : string) (e : exn).

(** A pandas DataFrame: column labels and rows of cells. *)
Record dataframe : Type := mk_dataframe {
  df_columns : list (list Z);
  df_rows : list (list json)
}.

(** The fields of an [IPECompetenciesOrchestrator]; [orginal_df] and
    [filter_df_course_ids] are references into the heap of DataFrames. The
    [api_handler] field is the client the whole model is parameterised by. *)
Record IPECompetenciesOrchestrator : Type := mk_orchestrator {
  orginal_df : nat;
  props : json;
  filter_df_course_ids : nat
}.

Section State.
Variable W : Type.

(** The program state: the remote side as seen through the client ([W]),
    the log of client calls with what each returned, the log records, the
    DataFrame heap and the orchestrator object. *)
Record state : Type := mk_state {
  st_world : W;
  st_calls : list (request * option response);
  st_logs : list log_entry;
  st_heap : list dataframe;
  st_self : IPECompetenciesOrchestrator
}.

Definition M (A : Type) : Type := state -> result A * state.

Definition ret {A} (a : A) : M A := fun s => (Ok a, s).

Definition bind {A B} (m : M A) (k : A -> M B) : M B :=
  fun s => match m s with
           | (Ok a, s') => k a s'
           | (Exc e, s') => (Exc e, s')
           end.

Definition raise {A} (e : exn) : M A := fun s => (Exc e, s).

Definition lift {A} (r : result A) : M A := fun s => (r, s).

(** [try: m except Exception as e: h(e)]. *)
Definition try_except {A} (m : M A) (h : exn -> M A) : M A :=
  fun s => match m s with
           | (Exc e, s') => if is_Exception e then h e s' else (Exc e, s')
           | r => r
           end.

Definition log_info (msg : fstring) : M unit :=
  fun s => (Ok tt, mk_state (st_world s) (st_calls s) (st_logs s ++ [LogInfo msg])
                            (st_heap s) (st_self s)).

Definition log_error (prefix : string) (e : exn) : M unit :=
  fun s => (Ok tt, mk_state (st_world s) (st_calls s) (st_logs s ++ [LogError prefix e])
                            (st_heap s) (st_self s)).

Definition get_self : M IPECompetenciesOrchestrator := fun s => (Ok (st_self s), s).

Definition set_self (o : IPECompetenciesOrchestrator) : M unit :=
  fun s => (Ok tt, mk_state (st_world s) (st_calls s) (st_logs s) (st_heap s) o).

End State.

Arguments mk_state {W}.
Arguments st_world {W}.
Arguments st_calls {W}.
Arguments st_logs {W}.
Arguments st_heap {W}.
Arguments st_self {W}.
Arguments ret {W A} a s.
Arguments bind {W A B} m k s.
Arguments raise {W A} e s.
Arguments lift {W A} r s.
Arguments try_except {W A} m h s.
Arguments log_info {W} msg s.
Arguments log_error {W} prefix e s.
Arguments get_self {W} s.
Arguments set_self {W} o s.

Notation "x <- m ;; k" := (bind m (fun x => k))
  (at level 61, m at next level, right associativity).
Notation "m ;; k" := (bind m (fun _ => k))
  (at level 61, right associativity).

(* ================================================================== *)
(** ** The assignment workflow ([assignment_flow.py]) *)

Section Workflow.

Variable W : Type.

(** [CANVAS_URL_BEGIN], [ASSIGNMENT_GROUP_NAME] and [ASSIGNMENT_NAME] of
    the [constants] module. *)
Variables CANVAS_URL_BEGIN ASSIGNMENT_GROUP_NAME ASSIGNMENT_NAME : list Z.

(** [self.api_handler.api_call_with_retries]: any client, acting on the
    remote side [W]; [None] is the absence it returns on failure. *)
Variable api_call_with_retries : request -> W -> option response * W.

Definition call_api (req : request) : M W (option response) :=
  fun s => let (r, w') := api_call_with_retries req (st_world s) in
           (Ok r, mk_state w' (st_calls s ++ [(req, r)]) (st_logs s)
                           (st_heap s) (st_self s)).

(** Modelled from the spec: [response_none_check] of
    [ipe_process_orchestrator/api_helper.py], which is not in the sources.
    A step that receives absence where a response was required raises a
    workflow-level error carrying the step's descriptive message. *)
Definition response_none_check (resp : option response) (err_msg : fstring) : M W unit :=
  match resp with
  | None => raise (WorkflowError err_msg)
  | Some _ => ret tt
  end.

(** [resp.text] on an [Optional[Response]]. *)
Definition resp_text (resp : option response) : M W (list Z) :=
  match resp with
  | Some r => ret (text r)
  | None => raise AttributeError
  end.

Definition py_json_loads (t : list Z) : M W json :=
  match json_loads t with
  | Some v => ret v
  | None => raise JSONDecodeError
  end.

Record IPEAssignmentFlow : Type := mk_flow {
  rubric_id : json;
  course_id : json
}.

(** [_look_up_ipe_assignment], lines 27-32. *)
Definition lookup_ag_payload : json :=
  JObj [(cp "include[]", JStr (cp "assignments")); (cp "per_page", JInt 100)].

Definition lookup_ag_request (self : IPEAssignmentFlow) : request :=
  mk_request [Fmt (JStr CANVAS_URL_BEGIN); Lit "/courses/"; Fmt (course_id self);
              Lit "/assignment_groups"]
             "GET" (Some lookup_ag_payload).

Definition lookup_err_msg (self : IPEAssignmentFlow) : fstring :=
  [Lit "Error looking up assignment group '"; Fmt (JStr ASSIGNMENT_GROUP_NAME);
   Lit "' with assignment name '"; Fmt (JStr ASSIGNMENT_NAME);
   Lit "' for course "; Fmt (course_id self); Lit " failed"].

(** [_delete_assignment], lines 49-53. *)
Definition delete_assignment_request (self : IPEAssignmentFlow) (assignment_id : json)
  : request :=
  mk_request [Fmt (JStr CANVAS_URL_BEGIN); Lit "/courses/"; Fmt (course_id self);
              Lit "/assignments/"; Fmt assignment_id]
             "DELETE" None.

Definition delete_err_msg (self : IPEAssignmentFlow) (assignment_id : json) : fstring :=
  [Lit "Error deleting assignment "; Fmt assignment_id; Lit " for course ";
   Fmt (course_id self)].

(** [_create_assignment_group], lines 63-68. *)
Definition ag_payload : json :=
  JObj [(cp "name", JStr ASSIGNMENT_GROUP_NAME); (cp "position", JInt 2000)].

Definition assignment_group_creation_request (self : IPEAssignmentFlow) : request :=
  mk_request [Fmt (JStr CANVAS_URL_BEGIN); Lit "/courses/"; Fmt (course_id self);
              Lit "/assignment_groups"]
             "POST" (Some ag_payload).

Definition create_group_err_msg (self : IPEAssignmentFlow) : fstring :=
  [Lit "Error creating assignment group "; Fmt (JStr ASSIGNMENT_GROUP_NAME);
   Lit " for course "; Fmt (course_id self)].

(** [_create_assignment], lines 80-94. *)
Definition assignment_payload (assignment_group_id : json) : json :=
  JObj [(cp "assignment[name]", JStr ASSIGNMENT_NAME);
        (cp "assignment[description]",
         JStr (cp "This assignment is used for applying IPE competencies and does not require any student submissions"));
        (cp "assignment[points_possible]", JInt 0);
        (cp "assignment[submission_types][]", JStr (cp "none"));
        (cp "assignment[assignment_group_id]", assignment_group_id);
        (cp "assignment[notify_of_update]", JStr (cp "false"));
        (cp "assignment[published]", JStr (cp "true"));
        (cp "assignment[omit_from_final_grade]", JStr (cp "true"));
        (cp "assignment[grading_type]", JStr (cp "not_graded"))].

Definition assignment_creation_request (self : IPEAssignmentFlow) (assignment_group_id : json)
  : request :=
  mk_request [Fmt (JStr CANVAS_URL_BEGIN); Lit "/courses/"; Fmt (course_id self);
              Lit "/assignments"]
             "POST" (Some (assignment_payload assignment_group_id)).

Definition create_assignment_err_msg (self : IPEAssignmentFlow) : fstring :=
  [Lit "Error creating assignment for course "; Fmt (course_id self); Lit " failed"].

(** [_assign_ipe_rubrics], lines 106-116. *)
Definition rubrics_payload (self : IPEAssignmentFlow) (assignment_id : json) : json :=
  JObj [(cp "rubric_association[association_type]", JStr (cp "Assignment"));
        (cp "rubric_association[association_id]", assignment_id);
        (cp "rubric_association[use_for_grading]", JStr (cp "false"));
        (cp "rubric_association[purpose]", JStr (cp "grading"));
        (cp "rubric_association[rubric_id]", rubric_id self)].

Definition rubrics_creation_request (self : IPEAssignmentFlow) (assignment_id : json)
  : request :=
  mk_request [Fmt (JStr CANVAS_URL_BEGIN); Lit "/courses/"; Fmt (course_id self);
              Lit "/rubric_associations"]
             "POST" (Some (rubrics_payload self assignment_id)).

Definition rubrics_err_msg (self : IPEAssignmentFlow) (assignment_id : json) : fstring :=
  [Lit "Error assigning rubrics "; Fmt (rubric_id self); Lit " for assignment ";
   Fmt assignment_id; Lit " for course failed "; Fmt (course_id self)].

Definition _delete_assignment (self : IPEAssignmentFlow) (assignment_id : json) : M W unit :=
  delete_assignment_resp <- call_api (delete_assignment_request self assignment_id) ;;
  response_none_check delete_assignment_resp (delete_err_msg self assignment_id) ;;
  log_info [Lit "Deleted assignment: "; Fmt assignment_id; Lit " for course: ";
            Fmt (course_id self)].

(** The inner loop of [_look_up_ipe_assignment] (lines 39-41). *)
Fixpoint scan_assignments (self : IPEAssignmentFlow) (assignments : list json) : M W unit :=
  match assignments with
  | [] => ret tt
  | assignment :: rest =>
      name <- lift (py_getitem assignment (cp "name")) ;;
      stripped <- lift (py_strip name) ;;
      (if list_Z_eqb stripped ASSIGNMENT_NAME then
         assignment_id <- lift (py_getitem assignment (cp "id")) ;;
         _delete_assignment self assignment_id
       else ret tt) ;;
      scan_assignments self rest
  end.

(** The outer loop of [_look_up_ipe_assignment] (lines 37-42). *)
Fixpoint scan_groups (self : IPEAssignmentFlow) (ags : list json) (ag_list : list json)
  : M W (list json) :=
  match ags with
  | [] => ret ag_list
  | ag :: rest =>
      name <- lift (py_getitem ag (cp "name")) ;;
      stripped <- lift (py_strip name) ;;
      ag_list' <-
        (if list_Z_eqb stripped ASSIGNMENT_GROUP_NAME then
           assignments <- lift (py_getitem ag (cp "assignments")) ;;
           items <- lift (py_iter assignments) ;;
           scan_assignments self items ;;
           ag_id <- lift (py_getitem ag (cp "id")) ;;
           ret (ag_list ++ [ag_id])
         else ret ag_list) ;;
      scan_groups self rest ag_list'
  end.

(** The result is [Union[List[int], int]]: the empty list when no group
    matched, the first matching group's id otherwise. *)
Definition _look_up_ipe_assignment (self : IPEAssignmentFlow) : M W json :=
  lookup_ag_resp <- call_api (lookup_ag_request self) ;;
  response_none_check lookup_ag_resp (lookup_err_msg self) ;;
  t <- resp_text lookup_ag_resp ;;
  lookup_ag_resp_json <- py_json_loads t ;;
  ags <- lift (py_iter lookup_ag_resp_json) ;;
  ag_list <- scan_groups self ags [] ;;
  ret (match ag_list with [] => JArr ag_list | first :: _ => first end).

Definition _create_assignment_group (self : IPEAssignmentFlow) : M W json :=
  ag_resp <- call_api (assignment_group_creation_request self) ;;
  response_none_check ag_resp (create_group_err_msg self) ;;
  t <- resp_text ag_resp ;;
  body <- py_json_loads t ;;
  assignment_group_id <- lift (py_getitem body (cp "id")) ;;
  log_info [Lit "Created assignment group: "; Fmt assignment_group_id;
            Lit " for course: "; Fmt (course_id self)] ;;
  ret assignment_group_id.

Definition _create_assignment (self : IPEAssignmentFlow) (assignment_group_id : json)
  : M W json :=
  assignment_resp <- call_api (assignment_creation_request self assignment_group_id) ;;
  response_none_check assignment_resp (create_assignment_err_msg self) ;;
  t <- resp_text assignment_resp ;;
  body <- py_json_loads t ;;
  assignment_id <- lift (py_getitem body (cp "id")) ;;
  log_info [Lit "Created assignment: "; Fmt assignment_id; Lit " in a group: ";
            Fmt assignment_group_id; Lit " for course: "; Fmt (course_id self)] ;;
  ret assignment_id.

Definition _assign_ipe_rubrics (self : IPEAssignmentFlow) (assignment_id : json) : M W unit :=
  rubrics_resp <- call_api (rubrics_creation_request self assignment_id) ;;
  response_none_check rubrics_resp (rubrics_err_msg self assignment_id) ;;
  log_info [Lit "Rubrics "; Fmt (rubric_id self); Lit " is assigned to assignment ";
            Fmt assignment_id; Lit " in courses "; Fmt (course_id self)].

(** [f'Starting {type(self).__name__}  for course {self.course_id}']. *)
Definition start_msg (self : IPEAssignmentFlow) : fstring :=
  [Lit "Starting "; Fmt (JStr (cp "IPEAssignmentFlow")); Lit "  for course ";
   Fmt (course_id self)].

Definition start_assignment_flow (self : IPEAssignmentFlow) : M W json :=
  log_info (start_msg self) ;;
  try_except
    (assignment_group_id <- _look_up_ipe_assignment self ;;
     assignment_group_id <-
       (if negb (py_truthy assignment_group_id)
        then _create_assignment_group self
        else ret assignment_group_id) ;;
     assignment_id <- _create_assignment self assignment_group_id ;;
     _assign_ipe_rubrics self assignment_id ;;
     ret assignment_id)
    (fun e => raise e).

End Workflow.

(* ================================================================== *)
(** ** The orchestrator ([orchestrator.py]) *)

Section Orchestrator.

Variable W : Type.
Variables CANVAS_URL_BEGIN ASSIGNMENT_GROUP_NAME ASSIGNMENT_NAME : list Z.
Variable api_call_with_retries : request -> W -> option response * W.

(** [COL_COURSE_ID] of the [constants] module. *)
Variable COL_COURSE_ID : list Z.

(** [IPERubricDataMapping(api_handler, account, rubric).fetch_rubric_api()],
    whose class is not in the sources. *)
Variable fetch_rubric_api : json -> json -> M W json.

Definition get_df (l : nat) : M W dataframe :=
  fun s => match nth_error (st_heap s) l with
           | Some d => (Ok d, s)
           | None => (Exc AttributeError, s)
           end.

Fixpoint replace_nth {A} (l : list A) (n : nat) (x : A) : list A :=
  match l, n with
  | [], _ => []
  | _ :: r, O => x :: r
  | y :: r, S n' => y :: replace_nth r n' x
  end.

Definition set_df (l : nat) (d : dataframe) : M W unit :=
  fun s => (Ok tt, mk_state (st_world s) (st_calls s) (st_logs s)
                            (replace_nth (st_heap s) l d) (st_self s)).

Definition alloc_df (d : dataframe) : M W nat :=
  fun s => (Ok (List.length (st_heap s)),
            mk_state (st_world s) (st_calls s) (st_logs s) (st_heap s ++ [d]) (st_self s)).

Definition sys_exit {A} (code : Z) : M W A := raise (SystemExit code).

(** Modelled from the spec: [df_columns_strip] of [ipe_utils/df_utils.py],
    which is not in the sources: the column labels with surrounding
    whitespace trimmed. *)
Definition df_columns_strip (columns : list (list Z)) : list (list Z) :=
  map str_strip columns.

(** A syntactically valid numeric course id: a non-empty string of ASCII
    digits, or a non-negative int. *)
Definition is_course_id (v : json) : bool :=
  match v with
  | JStr s => negb (Nat.eqb (List.length s) 0) && forallb JsonDecode.is_digit s
  | JInt z => 0 <=? z
  | _ => false
  end.

Fixpoint index_of (k : list Z) (cols : list (list Z)) : option nat :=
  match cols with
  | [] => None
  | c :: r => if list_Z_eqb k c then Some O
              else match index_of k r with Some i => Some (S i) | None => None end
  end.

(** Modelled from the spec: [df_remove_non_course_id] of
    [ipe_utils/df_utils.py], which is not in the sources: a new DataFrame
    with the same labels holding only the rows with a syntactically valid
    numeric course id; the DataFrame passed in is left as it is (the
    docstring of [_clean_up_ipe_dataframe], item 3). Without a course-id
    column it raises [KeyError]. *)
Definition df_remove_non_course_id (l : nat) : M W nat :=
  df <- get_df l ;;
  match index_of COL_COURSE_ID (df_columns df) with
  | None => raise (KeyError (JStr COL_COURSE_ID))
  | Some i =>
      alloc_df (mk_dataframe (df_columns df)
                  (filter (fun row => match nth_error row i with
                                      | Some v => is_course_id v
                                      | None => false
                                      end) (df_rows df)))
  end.

Definition _clean_up_ipe_dataframe : M W unit :=
  try_except
    (self <- get_self ;;
     df <- get_df (orginal_df self) ;;
     set_df (orginal_df self) (mk_dataframe (df_columns_strip (df_columns df)) (df_rows df)) ;;
     cleaned_up_df <- df_remove_non_course_id (orginal_df self) ;;
     self <- get_self ;;
     set_self (mk_orchestrator (orginal_df self) (props self) cleaned_up_df))
    (fun e => log_error "Error in clean_up_ipe_dataframe: " e ;; sys_exit 1).

(** The global names of [orchestrator.py] after its imports and
    definitions. *)
Definition orchestrator_globals : list string :=
  ["logging"; "sys"; "NoReturn"; "Union"; "pd"; "df_columns_strip";
   "df_remove_non_course_id"; "IPEAssignmentFlow"; "APIHandler"; "COL_COURSE_ID";
   "Any"; "Dict"; "logger"; "IPECompetenciesOrchestrator"]%string.

(** Evaluating a global name of the module. *)
Definition load_global (name : string) : M W unit :=
  if existsb (String.eqb name) orchestrator_globals then ret tt else raise (NameError name).

Definition getting_rubrics : M W json :=
  try_except
    (self <- get_self ;;
     rubric_account_id <- lift (py_getitem (props self) (cp "rubric_account_id")) ;;
     rubric_id <- lift (py_getitem (props self) (cp "rubric_id")) ;;
     load_global "IPERubricDataMapping" ;;
     fetch_rubric_api rubric_account_id rubric_id)
    (fun e => log_error "Error in getting_rubrics: " e ;; sys_exit 1).

Definition _create_delete_assignment (course : json) : M W json :=
  course_id <- lift (py_getitem course COL_COURSE_ID) ;;
  self <- get_self ;;
  rubric_id <- lift (py_getitem (props self) (cp "rubric_id")) ;;
  try_except
    (start_assignment_flow W CANVAS_URL_BEGIN ASSIGNMENT_GROUP_NAME ASSIGNMENT_NAME
       api_call_with_retries (mk_flow rubric_id course_id))
    (fun e => raise e).

Definition start_competencies_assigning_process (course : json) : M W unit :=
  try_except
    (assignment_id <- _create_delete_assignment course ;; ret tt)
    (fun e => log_error EmptyString e). (* [logger.error(e)]: no prefix *)

(** Calling [self.start_competencies_assigning_process] with the positional
    arguments [args]: the method takes exactly one besides [self]. *)
Definition call_start_competencies_assigning_process (args : list json) : M W unit :=
  match args with
  | [course] => start_competencies_assigning_process course
  | _ => raise TypeError
  end.

(** A row of a DataFrame as a pandas Series. *)
Definition series (cols : list (list Z)) (row : list json) : json :=
  JObj (combine cols row).

Fixpoint apply_rows (f : json -> M W unit) (cols : list (list Z)) (rows : list (list json))
  : M W unit :=
  match rows with
  | [] => ret tt
  | row :: rest => f (series cols row) ;; apply_rows f cols rest
  end.

(** [df.apply(f, axis=1)]. On a DataFrame without rows pandas calls [f]
    once on a Series of NaN indexed by the labels, to infer the result
    type, and discards an [Exception] it raises. *)
Definition df_apply_axis1 (f : json -> M W unit) (l : nat) : M W unit :=
  df <- get_df l ;;
  match df_rows df with
  | [] => try_except (f (JObj (map (fun c => (c, JNaN)) (df_columns df)))) (fun _ => ret tt)
  | rows => apply_rows f (df_columns df) rows
  end.

Definition start_composing_process : M W unit :=
  _clean_up_ipe_dataframe ;;
  rubrics_data <- getting_rubrics ;;
  self <- get_self ;;
  df_apply_axis1
    (fun course => call_start_competencies_assigning_process [course; rubrics_data])
    (filter_df_course_ids self).

End Orchestrator.

(* ================================================================== *)
(** ** The entry point ([ipe-start.py]) *)

Section Main.
Variable W : Type.
Variables CANVAS_URL_BEGIN ASSIGNMENT_GROUP_NAME ASSIGNMENT_NAME : list Z.
Variable api_call_with_retries : request -> W -> option response * W.
Variable COL_COURSE_ID : list Z.
Variable fetch_rubric_api : json -> json -> M W json.
(** [ReadEnvProps().get_env_props()]; its module is not in the sources. *)
Variable get_env_props : M W json.
(** [GetIPEDataFromSheets(props).get_worksheet_instance()]; its module is
    not in the sources. The worksheet it returns is passed on as the
    orchestrator's [original_df], here a reference into the heap of
    DataFrames; a reference to no DataFrame stands for an object without
    the DataFrame attributes. *)
Variable get_worksheet_instance : json -> M W nat.
(** [APIHandler(props)]: whatever its construction does; the client it
    builds is [api_call_with_retries]. *)
Variable APIHandler_init : json -> M W unit.

(** [IPECompetenciesOrchestrator.__init__] (orchestrator.py, lines 22-29):
    the fields take the arguments, and [filter_df_course_ids] a fresh empty
    [pd.DataFrame()]. The [api_handler] field is the client that the
    process functions take as a parameter. *)
Definition IPECompetenciesOrchestrator_init (props : json) (original_df : nat) : M W unit :=
  filter_df_course_ids <- alloc_df W (mk_dataframe [] []) ;;
  set_self (mk_orchestrator original_df props filter_df_course_ids).

(** [main()] of [ipe-start.py] (lines 16-24). *)
Definition main : M W unit :=
  log_info [Lit "IPE Process Starting...."] ;;
  props <- get_env_props ;;
  worksheet <- get_worksheet_instance props ;;
  APIHandler_init props ;;
  IPECompetenciesOrchestrator_init props worksheet ;;
  start_composing_process W CANVAS_URL_BEGIN ASSIGNMENT_GROUP_NAME ASSIGNMENT_NAME
    api_call_with_retries COL_COURSE_ID fetch_rubric_api ;;
  log_info [Lit "IPE Process Completed...."].
End Main.

(* ================================================================== *)
(** ** The API client ([api_handler/api_calls.py], not in the sources) *)

Module APIHandler.

(** Modelled from the spec: [APIHandler.check_if_response_successful]. A
    response is classified successful exactly when its body parses as JSON;
    the status code does not enter the classification (a 400 with a JSON
    body is successful). *)
Definition check_if_response_successful (r : response) : bool :=
  match json_loads (text r) with
  | Some _ => true
  | None => false
  end.

Section Retries.

Variable S : Type.

(** [ApiUtil.api_call]: one HTTP request against the remote service. *)
Variable api_call : request -> S -> response * S.

(** The fixed attempt ceiling. *)
Variable MAX_ATTEMPT_NUM : nat.

Fixpoint retry_loop (attempts_left : nat) (req : request) (s : S) : option response * S :=
  match attempts_left with
  | O => (None, s)
  | Datatypes.S n =>
      let (r, s') := api_call req s in
      if check_if_response_successful r then (Some r, s') else retry_loop n req s'
  end.

(** Modelled from the spec: [APIHandler.api_call_with_retries]. Each
    attempt issues the request and classifies the response; the first
    successful response is returned, and after [MAX_ATTEMPT_NUM]
    unsuccessful attempts the call returns [None]. The backoff delay
    between attempts is not modelled. *)
Definition api_call_with_retries (req : request) (s : S) : option response * S :=
  retry_loop MAX_ATTEMPT_NUM req s.

End Retries.

End APIHandler.

(* ================================================================== *)
(** ** A concrete remote service, for runs on concrete inputs *)

(** A Canvas-like service holding the assignment groups of one course. A
    refused DELETE answers 403 with a JSON error body and deletes nothing,
    as the service does for an action the caller may not perform. *)
Module Canvas.

Record group : Type := mk_group {
  g_id : Z;
  g_name : list Z;
  g_assignments : list (Z * list Z)
}.

Record world : Type := mk_world {
  groups : list group;
  next_id : Z;
  delete_refused : bool
}.

Fixpoint pos_digits (fuel : nat) (z : Z) (acc : list Z) : list Z :=
  match fuel with
  | O => acc
  | S f => if z <? 10 then (48 + z) :: acc
           else pos_digits f (z / 10) ((48 + z mod 10) :: acc)
  end.

Definition int_text (z : Z) : list Z :=
  if z <? 0 then 45 :: pos_digits 64 (- z) [] else pos_digits 64 z [].

Definition hex_digit (d : Z) : Z := if d <? 10 then 48 + d else 87 + d.

Definition escape_char (c : Z) : list Z :=
  if c =? 34 then [92; 34]
  else if c =? 92 then [92; 92]
  else if c <? 32 then [92; 117; 48; 48; hex_digit (c / 16); hex_digit (c mod 16)]
  else [c].

Fixpoint join (sep : list Z) (xs : list (list Z)) : list Z :=
  match xs with
  | [] => []
  | [x] => x
  | x :: r => x ++ sep ++ join sep r
  end.

Definition str_text (s : list Z) : list Z := 34 :: flat_map escape_char s ++ [34].

(** [json.dumps], the way the service writes its bodies. *)
Fixpoint dumps (v : json) : list Z :=
  match v with
  | JNull => cp "null"
  | JBool b => if b then cp "true" else cp "false"
  | JInt z => int_text z
  | JFloat m e => int_text m ++ [101] ++ int_text e
  | JNaN => cp "NaN"
  | JInf neg => if neg then cp "-Infinity" else cp "Infinity"
  | JStr s => str_text s
  | JArr l => 91 :: join [44; 32] (map dumps l) ++ [93]
  | JObj kvs =>
      123 :: join [44; 32] (map (fun kv => str_text (fst kv) ++ [58; 32] ++ dumps (snd kv)) kvs)
      ++ [125]
  end.

Definition group_json (g : group) : json :=
  JObj [(cp "id", JInt (g_id g)); (cp "name", JStr (g_name g));
        (cp "assignments",
         JArr (map (fun a => JObj [(cp "id", JInt (fst a)); (cp "name", JStr (snd a))])
                   (g_assignments g)))].

Definition reply (code : Z) (body : json) : response := mk_response code (dumps body).

Definition not_found : response :=
  reply 404 (JObj [(cp "errors", JArr [JObj [(cp "message", JStr (cp "The specified resource does not exist."))]])]).

Definition forbidden : response :=
  reply 403 (JObj [(cp "errors", JArr [JObj [(cp "message", JStr (cp "user not authorized to perform that action"))]])]).

Definition payload_get (p : option json) (k : string) : option json :=
  match p with Some (JObj kvs) => dict_get kvs (cp k) | _ => None end.

Definition add_assignment (gid aid : Z) (name : list Z) (g : group) : group :=
  if g_id g =? gid then mk_group (g_id g) (g_name g) (g_assignments g ++ [(aid, name)]) else g.

Definition remove_assignment (aid : Z) (g : group) : group :=
  mk_group (g_id g) (g_name g) (filter (fun a => negb (fst a =? aid)) (g_assignments g)).

(** [ApiUtil.api_call] against the service. *)
Definition api_call (req : request) (w : world) : response * world :=
  let n := next_id w in
  match req_url req with
  | [_; Lit "/courses/"; _; Lit tail] =>
      if String.eqb tail "/assignment_groups" then
        if String.eqb (req_method req) "GET" then
          (reply 200 (JArr (map group_json (firstn 100 (groups w)))), w)
        else if String.eqb (req_method req) "POST" then
          match payload_get (req_payload req) "name" with
          | Some (JStr name) =>
              (reply 200 (JObj [(cp "id", JInt n); (cp "name", JStr name)]),
               mk_world (groups w ++ [mk_group n name []]) (n + 1) (delete_refused w))
          | _ => (not_found, w)
          end
        else (not_found, w)
      else if String.eqb tail "/assignments" then
        match payload_get (req_payload req) "assignment[assignment_group_id]",
              payload_get (req_payload req) "assignment[name]" with
        | Some (JInt gid), Some (JStr name) =>
            (reply 201 (JObj [(cp "id", JInt n); (cp "name", JStr name)]),
             mk_world (map (add_assignment gid n name) (groups w)) (n + 1) (delete_refused w))
        | _, _ => (not_found, w)
        end
      else if String.eqb tail "/rubric_associations" then
        (reply 200 (JObj [(cp "rubric_association", JObj [(cp "id", JInt n)])]),
         mk_world (groups w) (n + 1) (delete_refused w))
      else (not_found, w)
  | [_; Lit "/courses/"; _; Lit "/assignments/"; Fmt (JInt aid)] =>
      if delete_refused w then (forbidden, w)
      else (reply 200 (JObj [(cp "id", JInt aid)]),
            mk_world (map (remove_assignment aid) (groups w)) n (delete_refused w))
  | _ => (not_found, w)
  end.

(** The client the workflow runs with: the spec's retrying client over the
    service, with three attempts. *)
Definition client : request -> world -> option response * world :=
  APIHandler.api_call_with_retries world api_call 3.

Definition URL_BEGIN : list Z := cp "api/v1".
Definition GROUP_NAME : list Z := cp "IPE Competencies".
Definition ASSIGNMENT : list Z := cp "IPE Competencies Attained".

Definition flow (course rubric : Z) : IPEAssignmentFlow :=
  mk_flow (JStr (int_text rubric)) (JInt course).

Definition run (course rubric : Z) (w : world) :=
  start_assignment_flow world URL_BEGIN GROUP_NAME ASSIGNMENT client (flow course rubric)
    (mk_state w [] [] [] (mk_orchestrator 0 (JObj []) 0)).

(** The named assignments of group [gid] in world [w]. *)
Definition named_in_group (gid : Z) (name : list Z) (w : world) : nat :=
  List.length (flat_map (fun g => if g_id g =? gid
                                  then filter (fun a => list_Z_eqb (str_strip (snd a)) name)
                                              (g_assignments g)
                                  else []) (groups w)).

(** Course 111 of the spec: group 5 is the copied [IPE Competencies] group
    holding a stale [IPE Competencies Attained]; group 3 is unrelated. *)
Definition course111 (refuse : bool) : world :=
  mk_world [mk_group 3 (cp "Homework") [(4, cp "HW 1")];
            mk_group 5 (cp "IPE Competencies ") [(7, cp "IPE Competencies Attained")]]
           20 refuse.

End Canvas.

(* ================================================================== *)
(** ** Notions the statements are phrased in *)

Section Specs.

Variable W : Type.
Variables CANVAS_URL_BEGIN ASSIGNMENT_GROUP_NAME ASSIGNMENT_NAME : list Z.

(** [x['name'].strip() == n] evaluated without an exception. *)
Definition name_is (v : json) (n : list Z) : bool :=
  match py_getitem v (cp "name") with
  | Ok x => match py_strip x with Ok s => list_Z_eqb s n | Exc _ => false end
  | Exc _ => false
  end.

Definition id_of (v : json) : json :=
  match py_getitem v (cp "id") with Ok i => i | Exc _ => JNull end.

Definition assignments_of (g : json) : list json :=
  match py_getitem g (cp "assignments") with
  | Ok a => match py_iter a with Ok l => l | Exc _ => [] end
  | Exc _ => []
  end.

(** Ids of the groups of a lookup response whose trimmed name is the
    configured group name, in response order. *)
Definition matching_group_ids (gs : list json) : list json :=
  map id_of (filter (fun g => name_is g ASSIGNMENT_GROUP_NAME) gs).

(** Ids of the assignments whose trimmed name is the configured assignment
    name, nested in a group whose trimmed name is the configured group
    name, in response order. *)
Definition stale_assignment_ids (gs : list json) : list json :=
  flat_map (fun g => if name_is g ASSIGNMENT_GROUP_NAME
                     then map id_of (filter (fun a => name_is a ASSIGNMENT_NAME)
                                            (assignments_of g))
                     else []) gs.

(** What the lookup returns for the groups [gs]: the first matching id, or
    the empty list. *)
Definition lookup_result (gs : list json) : json :=
  match matching_group_ids gs with [] => JArr [] | i :: _ => i end.

(** [json.loads(r.text)['id'] == v]. *)
Definition resp_id (r : response) (v : json) : Prop :=
  exists j, json_loads (text r) = Some j /\ py_getitem j (cp "id") = Ok v.

Definition all_answered (cs : list (request * option response)) : Prop :=
  Forall (fun c => snd c <> None) cs.

(** The request of each workflow step and the message its absence check
    carries. *)
Inductive step_error (self : IPEAssignmentFlow) : request -> fstring -> Prop :=
| err_lookup :
    step_error self (lookup_ag_request CANVAS_URL_BEGIN self)
      (lookup_err_msg ASSIGNMENT_GROUP_NAME ASSIGNMENT_NAME self)
| err_delete (assignment_id : json) :
    step_error self (delete_assignment_request CANVAS_URL_BEGIN self assignment_id)
      (delete_err_msg self assignment_id)
| err_create_group :
    step_error self (assignment_group_creation_request CANVAS_URL_BEGIN ASSIGNMENT_GROUP_NAME self)
      (create_group_err_msg ASSIGNMENT_GROUP_NAME self)
| err_create_assignment (assignment_group_id : json) :
    step_error self
      (assignment_creation_request CANVAS_URL_BEGIN ASSIGNMENT_NAME self assignment_group_id)
      (create_assignment_err_msg self)
| err_rubrics (assignment_id : json) :
    step_error self (rubrics_creation_request CANVAS_URL_BEGIN self assignment_id)
      (rubrics_err_msg self assignment_id).

(** A computation only appends to the call log, and either every call it
    made was answered, or the last call got absence and the computation
    raised that step's workflow error. *)
Definition calls_ok {A} (self : IPEAssignmentFlow) (m : M W A) : Prop :=
  forall s, exists cs,
    st_calls (snd (m s)) = st_calls s ++ cs /\
    (all_answered cs \/
     exists pre req msg, cs = pre ++ [(req, None)] /\ all_answered pre /\
                         step_error self req msg /\ fst (m s) = Exc (WorkflowError msg)).

(** The state once [start_assignment_flow] has logged its start. *)
Definition started (self : IPEAssignmentFlow) (s : state W) : state W :=
  snd (log_info (start_msg self) s).

End Specs.

(** A client call that also records the response of every attempt. *)
Definition recording {S} (api_call : request -> S -> response * S)
  (req : request) (st : S * list response) : response * (S * list response) :=
  let (r, s') := api_call req (fst st) in (r, (s', snd st ++ [r])).

(** A log entry written by [logger.error]. *)
Definition is_log_error (l : log_entry) : Prop :=
  match l with LogError _ _ => True | LogInfo _ => False end.

(** [m] raises nothing but [Exception]s: no [SystemExit]. *)
Definition only_exceptions {W A} (m : M W A) : Prop :=
  forall s e, fst (m s) = Exc e -> is_Exception e = true.

(** [m] only appends calls to the log, and every request it sends
    satisfies [P]. *)
Definition calls_within {W A} (P : request -> Prop) (m : M W A) : Prop :=
  forall s, exists cs, st_calls (snd (m s)) = st_calls s ++ cs /\ Forall (fun c => P (fst c)) cs.

(** A dict [x] with the value under key [k] replaced by [f] of it. *)
Definition pad_key (k : list Z) (f : json -> json) (x : json) : json :=
  match x with
  | JObj kvs => JObj (map (fun kv => if list_Z_eqb (fst kv) k then (fst kv, f (snd kv)) else kv) kvs)
  | _ => x
  end.

(** A str padded with [a] in front and [b] behind. *)
Definition pad_str (a b : list Z) (v : json) : json :=
  match v with JStr n => JStr (a ++ n ++ b) | _ => v end.

(** The ['name'] of a dict padded. *)
Definition pad_name (a b : list Z) : json -> json := pad_key (cp "name") (pad_str a b).

(** A group of the lookup response with its ['name'] padded, and the
    ['name'] of each of its ['assignments'] too. *)
Definition pad_group (a b : list Z) (g : json) : json :=
  pad_key (cp "assignments")
    (fun v => match v with JArr l => JArr (map (pad_name a b) l) | _ => v end)
    (pad_name a b g).

(** Every response in [attempts] is classified unsuccessful. *)
Definition rejected (attempts : list response) : bool :=
  forallb (fun r => negb (APIHandler.check_if_response_successful r)) attempts.

(** The mocked [ApiUtil.api_call] of [test_api_with_no_errors]. *)
Definition mock_api_call (req : request) (u : unit) : response * unit :=
  (mk_response 200 (jtext "{'success': true}"), u).

(** A client that never gets a usable response. *)
Definition absent_client : request -> unit -> option response * unit := fun _ w => (None, w).

Definition flow_111 : IPEAssignmentFlow := mk_flow (JStr (cp "9")) (JInt 111).

Definition state0 {W} (w : W) : state W := mk_state w [] [] [] (mk_orchestrator 0 (JObj []) 0).

Definition lookup_absent : list (request * option response) :=
  [(lookup_ag_request Canvas.URL_BEGIN flow_111, None)].

Definition course_zero : Canvas.world :=
  Canvas.mk_world [Canvas.mk_group 0 (cp "IPE Competencies") []] 40 false.

Definition listing (w : Canvas.world) : json :=
  JArr (map Canvas.group_json (Canvas.groups w)).

Definition canvas_state (w : Canvas.world) : state Canvas.world := state0 w.

(** The failing input of the batch loop: the orchestrator of a CSV with
    courses 123, shell and 67, already cleaned to courses 123 and 67. *)
Definition ipe_props : json :=
  JObj [(cp "rubric_account_id", JInt 1); (cp "rubric_id", JInt 9)].

Definition raw_courses : dataframe :=
  mk_dataframe [cp " course_id "]
    [[JStr (cp "123")]; [JStr (cp "shell")]; [JStr (cp "67")]].

Definition cleaned_courses : dataframe :=
  mk_dataframe [cp "course_id"] [[JStr (cp "123")]; [JStr (cp "67")]].

Definition batch_state : state Canvas.world :=
  mk_state (Canvas.course111 false) [] [] [raw_courses; cleaned_courses]
    (mk_orchestrator 0 ipe_props 1).

(** A rubric fetch that would succeed. *)
Definition fetch_stub (account rubric : json) : M Canvas.world json := ret (JObj []).

(** A service that refuses every request with 403 and a JSON error body. *)
Definition refusing_client : request -> unit -> option response * unit :=
  fun _ u => (Some Canvas.forbidden, u).

(** A service where the token may only read: the listing answers with
    the groups [gs], and every other request is refused with 403 and a JSON
    error body. *)
Definition read_only_client (gs : list Canvas.group) : request -> unit -> option response * unit :=
  fun req u => if String.eqb (req_method req) "GET"
               then (Some (Canvas.reply 200 (JArr (map Canvas.group_json gs))), u)
               else (Some Canvas.forbidden, u).

(** The ['errors'] member of the refusal body. *)
Definition refusal_errors : json :=
  JArr [JObj [(cp "message", JStr (cp "user not authorized to perform that action"))]].

(** A course with an empty [IPE Competencies] group of id 5. *)
Definition ipe_group5 : list Canvas.group := [Canvas.mk_group 5 (cp "IPE Competencies") []].

(** A worksheet getter handing over the raw courses sheet as a DataFrame. *)
Definition worksheet_stub (props : json) : M Canvas.world nat := alloc_df Canvas.world raw_courses.

(* ================================================================== *)
(** ** Examples of the embedded operations *)

Example json_loads_obj :
  json_loads (jtext "{'success': true}") = Some (JObj [(cp "success", JBool true)]).
Proof. reflexivity. Qed.

Example json_loads_examples :
  json_loads (jtext " [1, -2.5e1, 'a\u00e9', null] ") =
    Some (JArr [JInt 1; JFloat (-25) 0; JStr [97; 233]; JNull])
  /\ json_loads (jtext "{'success': True") = None
  /\ json_loads (jtext "{'a': 1, 'b': 2, 'a': 3}") =
       Some (JObj [(cp "a", JInt 3); (cp "b", JInt 2)])
  /\ json_loads (jtext "01") = None
  /\ json_loads (jtext "[1,]") = None.
Proof. repeat split; reflexivity. Qed.

Example str_strip_example : str_strip (cp " 	IPE Competencies  ") = cp "IPE Competencies".
Proof. reflexivity. Qed.

(* ================================================================== *)
(** ** Lemmas on the monad *)

Section MonadFacts.

Variable W : Type.

Lemma bind_Ok {A B} (m : M W A) (k : A -> M W B) s a s' :
  m s = (Ok a, s') -> bind m k s = k a s'.
Proof. intros H. unfold bind. rewrite H. reflexivity. Qed.

Lemma bind_Exc {A B} (m : M W A) (k : A -> M W B) s e s' :
  m s = (Exc e, s') -> bind m k s = (Exc e, s').
Proof. intros H. unfold bind. rewrite H. reflexivity. Qed.

Lemma bind_Ok_inv {A B} (m : M W A) (k : A -> M W B) s b s'' :
  bind m k s = (Ok b, s'') -> exists a s', m s = (Ok a, s') /\ k a s' = (Ok b, s'').
Proof.
  unfold bind. destruct (m s) as [[a | e] s'].
  - intros H. exists a, s'. auto.
  - intros H. discriminate H.
Qed.

Lemma lift_Ok_inv {A} (r : result A) (s : state W) a s' :
  lift r s = (Ok a, s') -> r = Ok a /\ s' = s.
Proof. unfold lift. intros H. inversion H. auto. Qed.

Lemma try_reraise {A} (m : M W A) s : try_except m (fun e => raise e) s = m s.
Proof.
  unfold try_except, raise. destruct (m s) as [[a | e] s']; [reflexivity |].
  destruct (is_Exception e); reflexivity.
Qed.

End MonadFacts.

Ltac bind_inv H :=
  let a := fresh "a" in let s := fresh "s" in
  let H1 := fresh "H" in let H2 := fresh "H" in
  apply bind_Ok_inv in H; destruct H as [a [s [H1 H2]]].

(* ================================================================== *)
(** ** The workflow: calls and absence *)

Section WorkflowCalls.

Variable W : Type.
Variables CANVAS_URL_BEGIN ASSIGNMENT_GROUP_NAME ASSIGNMENT_NAME : list Z.
Variable client : request -> W -> option response * W.

Local Abbreviation CALLS_OK := (@calls_ok W CANVAS_URL_BEGIN ASSIGNMENT_GROUP_NAME ASSIGNMENT_NAME _).
Local Abbreviation STEP := (step_error CANVAS_URL_BEGIN ASSIGNMENT_GROUP_NAME ASSIGNMENT_NAME).

Lemma calls_ok_ext {A} self (m1 m2 : M W A) :
  (forall s, m1 s = m2 s) -> CALLS_OK self m1 -> CALLS_OK self m2.
Proof. intros E H s. rewrite <- E. apply H. Qed.

Lemma calls_ok_bind {A B} self (m : M W A) (k : A -> M W B) :
  CALLS_OK self m -> (forall a, CALLS_OK self (k a)) -> CALLS_OK self (bind m k).
Proof.
  intros Hm Hk s. destruct (Hm s) as [cs1 [Hc1 Hd1]]. revert Hc1 Hd1. unfold bind.
  destruct (m s) as [[a | e] s1]; simpl; intros Hc1 Hd1.
  - destruct Hd1 as [Ha1 | [pre [req [msg [_ [_ [_ Hf]]]]]]]; [| discriminate Hf].
    destruct (Hk a s1) as [cs2 [Hc2 Hd2]]. exists (cs1 ++ cs2). split.
    + rewrite Hc2, Hc1, app_assoc. reflexivity.
    + destruct Hd2 as [Ha2 | [pre [req [msg [Hcs [Hp [Hst Hf]]]]]]].
      * left. apply Forall_app. split; assumption.
      * right. exists (cs1 ++ pre), req, msg. rewrite Hcs, app_assoc.
        repeat split; auto. apply Forall_app. split; assumption.
  - exists cs1. split; [assumption |].
    destruct Hd1 as [Ha1 | [pre [req [msg [H1 [H2 [H3 H4]]]]]]]; [left; assumption |].
    right. exists pre, req, msg. injection H4 as ->. repeat split; assumption.
Qed.

Lemma calls_ok_ret {A} self (a : A) : CALLS_OK self (ret a).
Proof. intros s. exists []. rewrite app_nil_r. split; [reflexivity | left; constructor]. Qed.

Lemma calls_ok_raise {A} self e : CALLS_OK self (@raise W A e).
Proof. intros s. exists []. rewrite app_nil_r. split; [reflexivity | left; constructor]. Qed.

Lemma calls_ok_lift {A} self (r : result A) : CALLS_OK self (lift r).
Proof. intros s. exists []. rewrite app_nil_r. split; [reflexivity | left; constructor]. Qed.

Lemma calls_ok_log_info self msg : CALLS_OK self (log_info msg).
Proof. intros s. exists []. rewrite app_nil_r. split; [reflexivity | left; constructor]. Qed.

Lemma calls_ok_resp_text self r : CALLS_OK self (resp_text W r).
Proof. destruct r; [apply calls_ok_ret | apply calls_ok_raise]. Qed.

Lemma calls_ok_json_loads self t : CALLS_OK self (py_json_loads W t).
Proof. unfold py_json_loads. destruct (json_loads t); [apply calls_ok_ret | apply calls_ok_raise]. Qed.

(** A client call followed by its absence check. *)
Lemma calls_ok_step {A} self req msg (K : option response -> M W A) :
  STEP self req msg -> (forall r, CALLS_OK self (K (Some r))) ->
  CALLS_OK self (x <- call_api W client req ;; response_none_check W x msg ;; K x).
Proof.
  intros Hst HK s.
  assert (Hcall : forall k : option response -> M W A,
    (x <- call_api W client req ;; k x) s =
    k (fst (client req (st_world s)))
      (mk_state (snd (client req (st_world s)))
                (st_calls s ++ [(req, fst (client req (st_world s)))])
                (st_logs s) (st_heap s) (st_self s))).
  { intros k. unfold bind, call_api. destruct (client req (st_world s)); reflexivity. }
  rewrite Hcall. destruct (client req (st_world s)) as [[r |] w']; simpl.
  - unfold bind at 1, response_none_check, ret.
    destruct (HK r (mk_state w' (st_calls s ++ [(req, Some r)]) (st_logs s) (st_heap s)
                              (st_self s))) as [cs [Hc Hd]].
    exists ((req, Some r) :: cs). simpl in Hc. split.
    + rewrite Hc, <- app_assoc. reflexivity.
    + destruct Hd as [Ha | [pre [req' [msg' [Hcs [Hp [Hst' Hf]]]]]]].
      * left. constructor; [simpl; discriminate | exact Ha].
      * right. exists ((req, Some r) :: pre), req', msg'. rewrite Hcs.
        repeat split; auto. constructor; [simpl; discriminate | exact Hp].
  - exists [(req, None)]. simpl. split; [reflexivity |].
    right. exists [], req, msg. repeat split; auto. constructor.
Qed.

Ltac calls_ok_solve :=
  repeat match goal with
  | |- @calls_ok _ _ _ _ _ _ (bind (call_api _ _ _) _) =>
      eapply calls_ok_step; [constructor | intro]
  | |- @calls_ok _ _ _ _ _ _ (bind _ _) => apply calls_ok_bind; [| intro]
  | |- @calls_ok _ _ _ _ _ _ (ret _) => apply calls_ok_ret
  | |- @calls_ok _ _ _ _ _ _ (raise _) => apply calls_ok_raise
  | |- @calls_ok _ _ _ _ _ _ (lift _) => apply calls_ok_lift
  | |- @calls_ok _ _ _ _ _ _ (log_info _) => apply calls_ok_log_info
  | |- @calls_ok _ _ _ _ _ _ (resp_text _ _) => apply calls_ok_resp_text
  | |- @calls_ok _ _ _ _ _ _ (py_json_loads _ _) => apply calls_ok_json_loads
  | |- @calls_ok _ _ _ _ _ _ (if ?b then _ else _) => destruct b
  end.

Lemma calls_ok_delete self assignment_id :
  CALLS_OK self (_delete_assignment W CANVAS_URL_BEGIN client self assignment_id).
Proof. unfold _delete_assignment. calls_ok_solve. Qed.

Lemma calls_ok_scan_assignments self items :
  CALLS_OK self (scan_assignments W CANVAS_URL_BEGIN ASSIGNMENT_NAME client self items).
Proof.
  induction items as [| a rest IH]; simpl; calls_ok_solve; auto using calls_ok_delete.
Qed.

Lemma calls_ok_scan_groups self ags acc :
  CALLS_OK self (scan_groups W CANVAS_URL_BEGIN ASSIGNMENT_GROUP_NAME ASSIGNMENT_NAME client
                   self ags acc).
Proof.
  revert acc. induction ags as [| g rest IH]; intros acc; simpl; calls_ok_solve;
    auto using calls_ok_scan_assignments.
Qed.

Lemma calls_ok_lookup self :
  CALLS_OK self (_look_up_ipe_assignment W CANVAS_URL_BEGIN ASSIGNMENT_GROUP_NAME
                   ASSIGNMENT_NAME client self).
Proof. unfold _look_up_ipe_assignment. calls_ok_solve. apply calls_ok_scan_groups. Qed.

Lemma calls_ok_create_group self :
  CALLS_OK self (_create_assignment_group W CANVAS_URL_BEGIN ASSIGNMENT_GROUP_NAME client self).
Proof. unfold _create_assignment_group. calls_ok_solve. Qed.

Lemma calls_ok_create_assignment self g :
  CALLS_OK self (_create_assignment W CANVAS_URL_BEGIN ASSIGNMENT_NAME client self g).
Proof. unfold _create_assignment. calls_ok_solve. Qed.

Lemma calls_ok_rubrics self aid :
  CALLS_OK self (_assign_ipe_rubrics W CANVAS_URL_BEGIN client self aid).
Proof. unfold _assign_ipe_rubrics. calls_ok_solve. Qed.

Lemma calls_ok_flow self :
  CALLS_OK self (start_assignment_flow W CANVAS_URL_BEGIN ASSIGNMENT_GROUP_NAME
                   ASSIGNMENT_NAME client self).
Proof.
  unfold start_assignment_flow. apply calls_ok_bind; [apply calls_ok_log_info | intros _].
  eapply calls_ok_ext; [intros s; symmetry; apply try_reraise |].
  calls_ok_solve; auto using calls_ok_lookup, calls_ok_create_group,
                              calls_ok_create_assignment, calls_ok_rubrics.
Qed.

End WorkflowCalls.

Section Absence.

Variable W : Type.
Variables CANVAS_URL_BEGIN ASSIGNMENT_GROUP_NAME ASSIGNMENT_NAME : list Z.
Variable client : request -> W -> option response * W.

Local Abbreviation SAF :=
  (start_assignment_flow W CANVAS_URL_BEGIN ASSIGNMENT_GROUP_NAME ASSIGNMENT_NAME client).

(** C7. Whenever the client returns absence ([None]) for the call of a
    workflow step (lookup, delete, create group, create assignment, attach
    rubric), that call is the last one [start_assignment_flow] makes and the
    run ends by raising, out of [start_assignment_flow], the step's workflow
    error; its message names the course id, and the assignment id (delete,
    attach rubric) and rubric id (attach rubric) where the step has them. *)
Theorem absent_response_raises_step_error self s cs req :
  st_calls (snd (SAF self s)) = st_calls s ++ cs ->
  In (req, None) cs ->
  exists pre msg,
    cs = pre ++ [(req, None)] /\
    step_error CANVAS_URL_BEGIN ASSIGNMENT_GROUP_NAME ASSIGNMENT_NAME self req msg /\
    fst (SAF self s) = Exc (WorkflowError msg) /\
    In (Fmt (course_id self)) msg /\
    (forall aid, req = delete_assignment_request CANVAS_URL_BEGIN self aid ->
                 In (Fmt aid) msg) /\
    (forall aid, req = rubrics_creation_request CANVAS_URL_BEGIN self aid ->
                 In (Fmt aid) msg /\ In (Fmt (rubric_id self)) msg).
Proof.
  intros Hc Hin.
  destruct (calls_ok_flow W CANVAS_URL_BEGIN ASSIGNMENT_GROUP_NAME ASSIGNMENT_NAME client self s)
    as [cs' [Hc' Hd]].
  rewrite Hc in Hc'. apply app_inv_head in Hc'. subst cs'.
  destruct Hd as [Ha | [pre [req' [msg [Hcs [Hp [Hst Hf]]]]]]].
  - exfalso. unfold all_answered in Ha. rewrite Forall_forall in Ha.
    apply (Ha _ Hin). reflexivity.
  - subst cs. apply in_app_or in Hin. destruct Hin as [Hin | [Heq | []]].
    + exfalso. unfold all_answered in Hp. rewrite Forall_forall in Hp.
      apply (Hp _ Hin). reflexivity.
    + injection Heq as <-. exists pre, msg.
      split; [reflexivity |]. split; [exact Hst |]. split; [exact Hf |]. split.
      { inversion Hst; simpl; tauto. }
      split.
      { intros aid E. revert E. inversion Hst; subst; intros E;
          unfold lookup_ag_request, delete_assignment_request,
                 assignment_group_creation_request, assignment_creation_request,
                 rubrics_creation_request in E;
          try discriminate E.
        injection E as ->. simpl. tauto. }
      { intros aid E. revert E. inversion Hst; subst; intros E;
          unfold lookup_ag_request, delete_assignment_request,
                 assignment_group_creation_request, assignment_creation_request,
                 rubrics_creation_request in E;
          try discriminate E.
        injection E as ->. simpl. tauto. }
Qed.

End Absence.

(* ================================================================== *)
(** ** The workflow: successful runs *)

Ltac ok_inv :=
  repeat match goal with
  | H : bind _ _ _ = (Ok _, _) |- _ => bind_inv H
  | H : try_except _ (fun e => raise e) _ = _ |- _ => rewrite try_reraise in H
  | H : lift _ _ = (Ok _, _) |- _ =>
      apply lift_Ok_inv in H; destruct H as [? ?]; subst
  | H : ret _ _ = (Ok _, _) |- _ => unfold ret in H; inversion H; clear H; subst
  | H : log_info _ _ = (Ok _, _) |- _ => unfold log_info in H; inversion H; clear H; subst
  | H : call_api _ ?c ?req ?s = (Ok _, _) |- _ =>
      let E := fresh "Ecl" in
      unfold call_api in H; destruct (c req (st_world s)) as [? ?] eqn:E;
      inversion H; clear H; subst
  | H : response_none_check _ ?r _ _ = (Ok _, _) |- _ =>
      destruct r; [unfold response_none_check, ret in H; inversion H; clear H; subst
                  | discriminate H]
  | H : resp_text _ (Some _) _ = (Ok _, _) |- _ =>
      unfold resp_text, ret in H; inversion H; clear H; subst
  | H : py_json_loads _ ?t _ = (Ok _, _) |- _ =>
      let E := fresh "Ej" in
      unfold py_json_loads in H; destruct (json_loads t) eqn:E;
      [unfold ret in H; inversion H; clear H; subst | discriminate H]
  end.

Ltac use_ok :=
  repeat match goal with H : ?x = Ok _ |- context [?x] => rewrite H end.

Section WorkflowSuccess.

Variable W : Type.
Variables CANVAS_URL_BEGIN ASSIGNMENT_GROUP_NAME ASSIGNMENT_NAME : list Z.
Variable client : request -> W -> option response * W.

Lemma delete_ok self aid s u s' :
  _delete_assignment W CANVAS_URL_BEGIN client self aid s = (Ok u, s') ->
  exists r, st_calls s' = st_calls s ++ [(delete_assignment_request CANVAS_URL_BEGIN self aid, Some r)].
Proof.
  unfold _delete_assignment. intros H. ok_inv. eexists. reflexivity.
Qed.

Lemma scan_assignments_ok self items s u s' :
  scan_assignments W CANVAS_URL_BEGIN ASSIGNMENT_NAME client self items s = (Ok u, s') ->
  exists ds, st_calls s' = st_calls s ++ ds /\
    map fst ds = map (delete_assignment_request CANVAS_URL_BEGIN self)
                     (map id_of (filter (fun a => name_is a ASSIGNMENT_NAME) items)) /\
    all_answered ds.
Proof.
  revert s u. induction items as [| a rest IH]; intros s u H; simpl in H.
  - ok_inv. exists []. rewrite app_nil_r. split; [reflexivity | split; constructor].
  - ok_inv.
    assert (Hn : name_is a ASSIGNMENT_NAME = list_Z_eqb a1 ASSIGNMENT_NAME).
    { unfold name_is. rewrite H0, H. reflexivity. }
    destruct (IH _ _ H3) as [ds [Hc [Hm Ha]]]. simpl. rewrite Hn.
    destruct (list_Z_eqb a1 ASSIGNMENT_NAME).
    + ok_inv. match goal with H : _delete_assignment _ _ _ _ _ _ = _ |- _ =>
                apply delete_ok in H; destruct H as [r Hr] end.
      exists ((delete_assignment_request CANVAS_URL_BEGIN self a3, Some r) :: ds).
      split; [rewrite Hc, Hr, <- app_assoc; reflexivity |].
      split; [simpl; rewrite Hm; unfold id_of; use_ok; reflexivity |].
      constructor; [simpl; discriminate | exact Ha].
    + ok_inv. exists ds. auto.
Qed.

Lemma scan_groups_ok self ags acc s l s' :
  scan_groups W CANVAS_URL_BEGIN ASSIGNMENT_GROUP_NAME ASSIGNMENT_NAME client self ags acc s
  = (Ok l, s') ->
  exists ds, st_calls s' = st_calls s ++ ds /\
    map fst ds = map (delete_assignment_request CANVAS_URL_BEGIN self)
                     (stale_assignment_ids ASSIGNMENT_GROUP_NAME ASSIGNMENT_NAME ags) /\
    all_answered ds /\
    l = acc ++ matching_group_ids ASSIGNMENT_GROUP_NAME ags.
Proof.
  revert acc s. induction ags as [| g rest IH]; intros acc s H; simpl in H.
  - ok_inv. exists []. rewrite !app_nil_r. split; [reflexivity | split; [reflexivity | split; [constructor | reflexivity]]].
  - ok_inv.
    assert (Hn : name_is g ASSIGNMENT_GROUP_NAME = list_Z_eqb a0 ASSIGNMENT_GROUP_NAME).
    { unfold name_is. rewrite H0, H. reflexivity. }
    destruct (IH _ _ H3) as [ds [Hc [Hm [Ha Hl]]]].
    unfold stale_assignment_ids, matching_group_ids. simpl. rewrite Hn.
    destruct (list_Z_eqb a0 ASSIGNMENT_GROUP_NAME).
    + ok_inv. match goal with H : scan_assignments _ _ _ _ _ _ _ = _ |- _ =>
                apply scan_assignments_ok in H; destruct H as [ds1 [Hc1 [Hm1 Ha1]]] end.
      exists (ds1 ++ ds). split; [rewrite Hc, Hc1, <- app_assoc; reflexivity |].
      split.
      { rewrite map_app, Hm, Hm1, map_app. unfold assignments_of. use_ok. reflexivity. }
      split; [apply Forall_app; split; assumption |].
      try rewrite Hl. simpl. unfold id_of. use_ok. rewrite <- app_assoc. reflexivity.
    + ok_inv. exists ds. auto.
Qed.
Local Abbreviation SAF :=
  (start_assignment_flow W CANVAS_URL_BEGIN ASSIGNMENT_GROUP_NAME ASSIGNMENT_NAME client).
Local Abbreviation LOOKUP :=
  (_look_up_ipe_assignment W CANVAS_URL_BEGIN ASSIGNMENT_GROUP_NAME ASSIGNMENT_NAME client).
Local Abbreviation CREATE_GROUP :=
  (_create_assignment_group W CANVAS_URL_BEGIN ASSIGNMENT_GROUP_NAME client).
Local Abbreviation CREATE_ASSIGNMENT := (_create_assignment W CANVAS_URL_BEGIN ASSIGNMENT_NAME client).
Local Abbreviation ASSIGN := (_assign_ipe_rubrics W CANVAS_URL_BEGIN client).

Lemma lookup_ok self s v s' :
  LOOKUP self s = (Ok v, s') ->
  exists r j gs ds,
    fst (client (lookup_ag_request CANVAS_URL_BEGIN self) (st_world s)) = Some r /\
    json_loads (text r) = Some j /\ py_iter j = Ok gs /\
    st_calls s' = st_calls s ++ (lookup_ag_request CANVAS_URL_BEGIN self, Some r) :: ds /\
    map fst ds = map (delete_assignment_request CANVAS_URL_BEGIN self)
                     (stale_assignment_ids ASSIGNMENT_GROUP_NAME ASSIGNMENT_NAME gs) /\
    all_answered ds /\
    v = lookup_result ASSIGNMENT_GROUP_NAME gs.
Proof.
  unfold _look_up_ipe_assignment. intros H. ok_inv.
  match goal with H : scan_groups _ _ _ _ _ _ _ _ _ = _ |- _ =>
    apply scan_groups_ok in H; destruct H as [ds [Hc [Hm [Ha Hl]]]] end.
  do 4 eexists. split; [reflexivity |]. split; [eassumption |].
  split; [eassumption |]. split; [rewrite Hc; simpl; rewrite <- app_assoc; reflexivity |].
  split; [eassumption |]. split; [assumption |].
  subst. unfold lookup_result. simpl. destruct (matching_group_ids _ _); reflexivity.
Qed.

Lemma create_group_ok self s g s' :
  CREATE_GROUP self s = (Ok g, s') ->
  exists r, st_calls s' = st_calls s ++
              [(assignment_group_creation_request CANVAS_URL_BEGIN ASSIGNMENT_GROUP_NAME self, Some r)]
            /\ resp_id r g.
Proof.
  unfold _create_assignment_group. intros H. ok_inv. eexists. split; [reflexivity |].
  eexists. split; eassumption.
Qed.

Lemma create_assignment_ok self g s aid s' :
  CREATE_ASSIGNMENT self g s = (Ok aid, s') ->
  exists r, st_calls s' = st_calls s ++
              [(assignment_creation_request CANVAS_URL_BEGIN ASSIGNMENT_NAME self g, Some r)]
            /\ resp_id r aid.
Proof.
  unfold _create_assignment. intros H. ok_inv. eexists. split; [reflexivity |].
  eexists. split; eassumption.
Qed.

Lemma rubrics_ok self aid s u s' :
  ASSIGN self aid s = (Ok u, s') ->
  exists r, st_calls s' = st_calls s ++ [(rubrics_creation_request CANVAS_URL_BEGIN self aid, Some r)].
Proof. unfold _assign_ipe_rubrics. intros H. ok_inv. eexists. reflexivity. Qed.

(** Once the lookup has returned [v], the run goes on as the rest of the
    [try] block. *)
Lemma flow_after_lookup self s v s1 :
  LOOKUP self (started W self s) = (Ok v, s1) ->
  SAF self s =
  (g <- (if negb (py_truthy v) then CREATE_GROUP self else ret v) ;;
   aid <- CREATE_ASSIGNMENT self g ;;
   ASSIGN self aid ;;
   ret aid) s1.
Proof.
  intros H. unfold start_assignment_flow.
  rewrite (bind_Ok W (log_info (start_msg self)) _ s tt (started W self s)) by reflexivity.
  rewrite try_reraise. rewrite (bind_Ok W _ _ _ _ _ H). reflexivity.
Qed.

Lemma flow_ok_trace self s aid s' :
  SAF self s = (Ok aid, s') ->
  exists r j gs ds pre g r2 r3,
    fst (client (lookup_ag_request CANVAS_URL_BEGIN self) (st_world s)) = Some r /\
    json_loads (text r) = Some j /\ py_iter j = Ok gs /\
    map fst ds = map (delete_assignment_request CANVAS_URL_BEGIN self)
                     (stale_assignment_ids ASSIGNMENT_GROUP_NAME ASSIGNMENT_NAME gs) /\
    all_answered ds /\
    ((py_truthy (lookup_result ASSIGNMENT_GROUP_NAME gs) = true /\
      g = lookup_result ASSIGNMENT_GROUP_NAME gs /\ pre = []) \/
     (py_truthy (lookup_result ASSIGNMENT_GROUP_NAME gs) = false /\
      exists r1, pre = [(assignment_group_creation_request CANVAS_URL_BEGIN ASSIGNMENT_GROUP_NAME
                           self, Some r1)] /\ resp_id r1 g)) /\
    resp_id r2 aid /\
    st_calls s' = st_calls s ++ (lookup_ag_request CANVAS_URL_BEGIN self, Some r) :: ds ++ pre ++
                  [(assignment_creation_request CANVAS_URL_BEGIN ASSIGNMENT_NAME self g, Some r2);
                   (rubrics_creation_request CANVAS_URL_BEGIN self aid, Some r3)].
Proof.
  unfold start_assignment_flow. intros H. ok_inv.
  match goal with H : _look_up_ipe_assignment _ _ _ _ _ _ _ = _ |- _ =>
    apply lookup_ok in H; destruct H as [r [j [gs [ds [Hr [Hj [Hgs [Hc [Hm [Ha Hv]]]]]]]]]] end.
  match goal with H : _create_assignment _ _ _ _ _ _ _ = _ |- _ =>
    apply create_assignment_ok in H; destruct H as [r2 [Hc2 Hid2]] end.
  match goal with H : _assign_ipe_rubrics _ _ _ _ _ _ = _ |- _ =>
    apply rubrics_ok in H; destruct H as [r3 Hc3] end.
  subst. simpl in Hr, Hc.
  match goal with H : (if negb (py_truthy ?v) then _ else _) _ = _ |- _ =>
    destruct (py_truthy v) eqn:Et; simpl in H end.
  - ok_inv. exists r, j, gs, ds, [], (lookup_result ASSIGNMENT_GROUP_NAME gs), r2, r3.
    do 5 (split; [assumption || reflexivity |]). split; [left; auto |]. split; [assumption |].
    rewrite Hc3, Hc2, Hc. simpl. rewrite <- !app_assoc. reflexivity.
  - match goal with H : _create_assignment_group _ _ _ _ _ _ = _ |- _ =>
      apply create_group_ok in H; destruct H as [r1 [Hc1 Hid1]] end.
    exists r, j, gs, ds,
      [(assignment_group_creation_request CANVAS_URL_BEGIN ASSIGNMENT_GROUP_NAME self, Some r1)],
      a1, r2, r3.
    do 5 (split; [eassumption || reflexivity |]).
    split; [right; split; [assumption | eexists; split; [reflexivity | eassumption]] |].
    split; [assumption |].
    rewrite Hc3, Hc2, Hc1, Hc. simpl. rewrite <- !app_assoc. reflexivity.
Qed.
Lemma stale_nil_of_matching_nil gs :
  matching_group_ids ASSIGNMENT_GROUP_NAME gs = [] ->
  stale_assignment_ids ASSIGNMENT_GROUP_NAME ASSIGNMENT_NAME gs = [].
Proof.
  unfold matching_group_ids, stale_assignment_ids.
  induction gs as [| g rest IH]; simpl; [reflexivity |].
  destruct (name_is g ASSIGNMENT_GROUP_NAME); [discriminate | exact IH].
Qed.

Lemma lookup_response_unique s r r' j j' gs gs' req :
  fst (client req (st_world s)) = Some r -> fst (client req (st_world s)) = Some r' ->
  json_loads (text r) = Some j -> json_loads (text r') = Some j' ->
  py_iter j = Ok gs -> py_iter j' = Ok gs' -> r' = r /\ j' = j /\ gs' = gs.
Proof.
  intros H1 H2 H3 H4 H5 H6. rewrite H1 in H2. injection H2 as <-.
  rewrite H3 in H4. injection H4 as <-. rewrite H5 in H6. injection H6 as <-. auto.
Qed.

(** C4. When the lookup of [start_assignment_flow] returns [v], the client
    answered the lookup request with a response whose body lists the groups
    [gs]. If some group's trimmed name is the configured group name, [v] is
    the id of the first such group. If none is, [v] is the empty list. That
    value is falsy, and the run goes on by creating a new group, then the
    assignment in it, then the rubric association. *)
Theorem lookup_returns_first_match_or_not_found self s v s1 :
  LOOKUP self (started W self s) = (Ok v, s1) ->
  exists r j gs,
    fst (client (lookup_ag_request CANVAS_URL_BEGIN self) (st_world s)) = Some r /\
    json_loads (text r) = Some j /\ py_iter j = Ok gs /\
    (forall i rest, matching_group_ids ASSIGNMENT_GROUP_NAME gs = i :: rest -> v = i) /\
    (matching_group_ids ASSIGNMENT_GROUP_NAME gs = [] ->
     v = JArr [] /\ py_truthy v = false /\
     SAF self s = (g <- CREATE_GROUP self ;; aid <- CREATE_ASSIGNMENT self g ;;
                   ASSIGN self aid ;; ret aid) s1).
Proof.
  intros H. pose proof (flow_after_lookup _ _ _ _ H) as Hf.
  apply lookup_ok in H. destruct H as [r [j [gs [ds [Hr [Hj [Hgs [_ [_ [_ Hv]]]]]]]]]].
  exists r, j, gs. split; [exact Hr |]. split; [exact Hj |]. split; [exact Hgs |].
  unfold lookup_result in Hv. split.
  - intros i rest E. rewrite E in Hv. exact Hv.
  - intros E. rewrite E in Hv. subst v. split; [reflexivity |]. split; [reflexivity |].
    exact Hf.
Qed.

(** C5 (amended). In a successful run, after the lookup the workflow
    sends one DELETE for each assignment whose trimmed name is the
    configured assignment name, in each group whose trimmed name is the
    configured group name, in response order. All of them come before the
    optional group creation and before the assignment is created. The
    workflow only requires each DELETE call to return a response
    ([all_answered]). It does not look at what the response says, so a
    successful run does not show that the stale copies are gone. *)
Theorem stale_copies_deleted_before_creation self s aid s' :
  SAF self s = (Ok aid, s') ->
  exists r j gs ds pre g r2 r3,
    fst (client (lookup_ag_request CANVAS_URL_BEGIN self) (st_world s)) = Some r /\
    json_loads (text r) = Some j /\ py_iter j = Ok gs /\
    map fst ds = map (delete_assignment_request CANVAS_URL_BEGIN self)
                     (stale_assignment_ids ASSIGNMENT_GROUP_NAME ASSIGNMENT_NAME gs) /\
    all_answered ds /\
    (pre = [] \/
     exists r1, pre = [(assignment_group_creation_request CANVAS_URL_BEGIN ASSIGNMENT_GROUP_NAME
                          self, Some r1)]) /\
    st_calls s' = st_calls s ++ (lookup_ag_request CANVAS_URL_BEGIN self, Some r) :: ds ++ pre ++
                  [(assignment_creation_request CANVAS_URL_BEGIN ASSIGNMENT_NAME self g, Some r2);
                   (rubrics_creation_request CANVAS_URL_BEGIN self aid, Some r3)].
Proof.
  intros H. apply flow_ok_trace in H.
  destruct H as [r [j [gs [ds [pre [g [r2 [r3 [Hr [Hj [Hgs [Hm [Ha [Hp [_ Hc]]]]]]]]]]]]]]].
  exists r, j, gs, ds, pre, g, r2, r3. do 5 (split; [assumption |]). split; [| exact Hc].
  destruct Hp as [[_ [_ Hp]] | [_ [r1 [Hp _]]]]; [left; exact Hp | right; exists r1; exact Hp].
Qed.

(** C6. When the lookup response lists no group with the configured
    name, a successful run makes exactly four calls after the lookup. It
    POSTs a group named [ASSIGNMENT_GROUP_NAME] at position 2000. It then
    creates the assignment in the group whose id that response returned.
    Last, it creates the rubric association for the assignment id that the
    second response returned. *)
Theorem fresh_course_three_creation_calls self s r j gs aid s' :
  fst (client (lookup_ag_request CANVAS_URL_BEGIN self) (st_world s)) = Some r ->
  json_loads (text r) = Some j -> py_iter j = Ok gs ->
  matching_group_ids ASSIGNMENT_GROUP_NAME gs = [] ->
  SAF self s = (Ok aid, s') ->
  exists r1 g r2 r3,
    st_calls s' = st_calls s ++
      [(lookup_ag_request CANVAS_URL_BEGIN self, Some r);
       (assignment_group_creation_request CANVAS_URL_BEGIN ASSIGNMENT_GROUP_NAME self, Some r1);
       (assignment_creation_request CANVAS_URL_BEGIN ASSIGNMENT_NAME self g, Some r2);
       (rubrics_creation_request CANVAS_URL_BEGIN self aid, Some r3)] /\
    req_method (assignment_group_creation_request CANVAS_URL_BEGIN ASSIGNMENT_GROUP_NAME self)
      = "POST"%string /\
    req_payload (assignment_group_creation_request CANVAS_URL_BEGIN ASSIGNMENT_GROUP_NAME self)
      = Some (JObj [(cp "name", JStr ASSIGNMENT_GROUP_NAME); (cp "position", JInt 2000)]) /\
    resp_id r1 g /\ resp_id r2 aid /\
    req_payload (assignment_creation_request CANVAS_URL_BEGIN ASSIGNMENT_NAME self g)
      = Some (assignment_payload ASSIGNMENT_NAME g) /\
    req_payload (rubrics_creation_request CANVAS_URL_BEGIN self aid)
      = Some (rubrics_payload self aid).
Proof.
  intros Hr Hj Hgs Hnil H. apply flow_ok_trace in H.
  destruct H as [r' [j' [gs' [ds [pre [g [r2 [r3 [Hr' [Hj' [Hgs' [Hm [Ha [Hp [Hid Hc]]]]]]]]]]]]]]].
  destruct (lookup_response_unique _ _ _ _ _ _ _ _ Hr Hr' Hj Hj' Hgs Hgs') as [-> [-> ->]].
  rewrite (stale_nil_of_matching_nil _ Hnil) in Hm. destruct ds; [| discriminate Hm].
  unfold lookup_result in Hp. rewrite Hnil in Hp.
  destruct Hp as [[Ht _] | [_ [r1 [Hp Hid1]]]]; [discriminate Ht |]. subst pre.
  exists r1, g, r2, r3. split; [exact Hc |].
  repeat (split; [reflexivity || assumption |]). reflexivity.
Qed.

(** C9. When the first group whose trimmed name matches has id 0, the
    lookup returns 0. That value is falsy, so the run continues with
    [_create_assignment_group] and creates the assignment in the group that
    call returns. In a successful run, the call after the lookup and the
    deletions is the group creation. The assignment request then uses the
    id from that response, not the found group's 0. *)
Theorem zero_group_id_creates_new_group self s r j gs rest :
  fst (client (lookup_ag_request CANVAS_URL_BEGIN self) (st_world s)) = Some r ->
  json_loads (text r) = Some j -> py_iter j = Ok gs ->
  matching_group_ids ASSIGNMENT_GROUP_NAME gs = JInt 0 :: rest ->
  (forall v s1, LOOKUP self (started W self s) = (Ok v, s1) ->
     v = JInt 0 /\
     SAF self s = (g <- CREATE_GROUP self ;; aid <- CREATE_ASSIGNMENT self g ;;
                   ASSIGN self aid ;; ret aid) s1) /\
  (forall aid s', SAF self s = (Ok aid, s') ->
     exists ds r1 g r2 r3,
       st_calls s' = st_calls s ++ (lookup_ag_request CANVAS_URL_BEGIN self, Some r) :: ds ++
         [(assignment_group_creation_request CANVAS_URL_BEGIN ASSIGNMENT_GROUP_NAME self, Some r1);
          (assignment_creation_request CANVAS_URL_BEGIN ASSIGNMENT_NAME self g, Some r2);
          (rubrics_creation_request CANVAS_URL_BEGIN self aid, Some r3)] /\
       resp_id r1 g).
Proof.
  intros Hr Hj Hgs H0. split.
  - intros v s1 H. pose proof (flow_after_lookup _ _ _ _ H) as Hf.
    apply lookup_ok in H. destruct H as [r' [j' [gs' [ds [Hr' [Hj' [Hgs' [_ [_ [_ Hv]]]]]]]]]].
    simpl in Hr'.
    destruct (lookup_response_unique _ _ _ _ _ _ _ _ Hr Hr' Hj Hj' Hgs Hgs') as [-> [-> ->]].
    unfold lookup_result in Hv. rewrite H0 in Hv. subst v. split; [reflexivity | exact Hf].
  - intros aid s' H. apply flow_ok_trace in H.
    destruct H as [r' [j' [gs' [ds [pre [g [r2 [r3 [Hr' [Hj' [Hgs' [_ [_ [Hp [_ Hc]]]]]]]]]]]]]]].
    destruct (lookup_response_unique _ _ _ _ _ _ _ _ Hr Hr' Hj Hj' Hgs Hgs') as [-> [-> ->]].
    unfold lookup_result in Hp. rewrite H0 in Hp.
    destruct Hp as [[Ht _] | [_ [r1 [Hp Hid1]]]]; [discriminate Ht |]. subst pre.
    exists ds, r1, g, r2, r3. split; [exact Hc | exact Hid1].
Qed.
End WorkflowSuccess.



(* ================================================================== *)
(** ** Exceptions, the orchestrator and the client *)


Section OnlyExceptions.

Variable W : Type.

Local Abbreviation OE := (@only_exceptions W _).

Lemma oe_bind {A B} (m : M W A) (k : A -> M W B) :
  OE m -> (forall a, OE (k a)) -> OE (bind m k).
Proof.
  intros Hm Hk s e. unfold bind. destruct (m s) as [[a | e'] s'] eqn:E.
  - apply Hk.
  - simpl. intros H. injection H as <-. apply (Hm s). rewrite E. reflexivity.
Qed.

Lemma oe_ret {A} (a : A) : OE (ret a).
Proof. intros s e H. discriminate H. Qed.

Lemma oe_raise {A} e : is_Exception e = true -> OE (@raise W A e).
Proof. intros He s e' H. injection H as <-. exact He. Qed.

Lemma oe_lift {A} (r : result A) : (forall e, r = Exc e -> is_Exception e = true) -> OE (lift r).
Proof. intros Hr s e H. apply Hr. exact H. Qed.

Lemma oe_log_info msg : OE (log_info msg).
Proof. intros s e H. discriminate H. Qed.

Lemma oe_log_error p x : OE (log_error p x).
Proof. intros s e H. discriminate H. Qed.

Lemma oe_get_self : OE get_self.
Proof. intros s e H. discriminate H. Qed.

Lemma oe_reraise {A} (m : M W A) : OE m -> OE (try_except m (fun e => raise e)).
Proof. intros Hm s e. rewrite try_reraise. apply Hm. Qed.

Lemma py_getitem_exc v k e : py_getitem v k = Exc e -> is_Exception e = true.
Proof.
  unfold py_getitem. destruct v; try (intros H; injection H as <-; reflexivity).
  destruct (dict_get _ k); intros H; [discriminate H | injection H as <-; reflexivity].
Qed.

Lemma py_strip_exc v e : py_strip v = Exc e -> is_Exception e = true.
Proof. unfold py_strip. destruct v; intros H; try discriminate H; injection H as <-; reflexivity. Qed.

Lemma py_iter_exc v e : py_iter v = Exc e -> is_Exception e = true.
Proof. unfold py_iter. destruct v; intros H; try discriminate H; injection H as <-; reflexivity. Qed.

Variables CANVAS_URL_BEGIN ASSIGNMENT_GROUP_NAME ASSIGNMENT_NAME : list Z.
Variable client : request -> W -> option response * W.

Lemma oe_call_api req : OE (call_api W client req).
Proof. intros s e. unfold call_api. destruct (client req (st_world s)). discriminate. Qed.

Lemma oe_none_check r msg : OE (response_none_check W r msg).
Proof. destruct r; [apply oe_ret | apply oe_raise; reflexivity]. Qed.

Lemma oe_resp_text r : OE (resp_text W r).
Proof. destruct r; [apply oe_ret | apply oe_raise; reflexivity]. Qed.

Lemma oe_json_loads t : OE (py_json_loads W t).
Proof. unfold py_json_loads. destruct (json_loads t); [apply oe_ret | apply oe_raise; reflexivity]. Qed.

Ltac oe_solve :=
  repeat match goal with
  | |- only_exceptions (bind _ _) => apply oe_bind; [| intro]
  | |- only_exceptions (ret _) => apply oe_ret
  | |- only_exceptions (lift (py_getitem _ _)) => apply oe_lift, py_getitem_exc
  | |- only_exceptions (lift (py_strip _)) => apply oe_lift, py_strip_exc
  | |- only_exceptions (lift (py_iter _)) => apply oe_lift, py_iter_exc
  | |- only_exceptions (log_info _) => apply oe_log_info
  | |- only_exceptions (call_api _ _ _) => apply oe_call_api
  | |- only_exceptions (response_none_check _ _ _) => apply oe_none_check
  | |- only_exceptions (resp_text _ _) => apply oe_resp_text
  | |- only_exceptions (py_json_loads _ _) => apply oe_json_loads
  | |- only_exceptions (if ?b then _ else _) => destruct b
  end.

Lemma oe_flow self :
  OE (start_assignment_flow W CANVAS_URL_BEGIN ASSIGNMENT_GROUP_NAME ASSIGNMENT_NAME client self).
Proof.
  assert (Hdel : forall aid, OE (_delete_assignment W CANVAS_URL_BEGIN client self aid)).
  { intros aid. unfold _delete_assignment. oe_solve. }
  assert (Hsa : forall items, OE (scan_assignments W CANVAS_URL_BEGIN ASSIGNMENT_NAME client self items)).
  { induction items; simpl; oe_solve; auto. }
  assert (Hsg : forall ags acc, OE (scan_groups W CANVAS_URL_BEGIN ASSIGNMENT_GROUP_NAME
                                      ASSIGNMENT_NAME client self ags acc)).
  { induction ags; intros acc; simpl; oe_solve; auto. }
  unfold start_assignment_flow. oe_solve. apply oe_reraise.
  unfold _look_up_ipe_assignment, _create_assignment_group, _create_assignment,
    _assign_ipe_rubrics.
  oe_solve; auto.
Qed.

Variable COL_COURSE_ID : list Z.

Lemma start_competencies_catches course s :
  fst (start_competencies_assigning_process W CANVAS_URL_BEGIN ASSIGNMENT_GROUP_NAME
         ASSIGNMENT_NAME client COL_COURSE_ID course s) = Ok tt.
Proof.
  assert (Hb : OE (assignment_id <- _create_delete_assignment W CANVAS_URL_BEGIN
                                      ASSIGNMENT_GROUP_NAME ASSIGNMENT_NAME client
                                      COL_COURSE_ID course ;; ret tt)).
  { unfold _create_delete_assignment. oe_solve. apply oe_get_self. apply oe_reraise, oe_flow. }
  unfold start_competencies_assigning_process, try_except.
  destruct ((assignment_id <- _create_delete_assignment W CANVAS_URL_BEGIN
               ASSIGNMENT_GROUP_NAME ASSIGNMENT_NAME client COL_COURSE_ID course ;; ret tt) s)
    as [[u | e] s'] eqn:E; [destruct u; reflexivity |].
  rewrite (Hb s e) by (rewrite E; reflexivity). reflexivity.
Qed.

End OnlyExceptions.

Section OrchestratorFacts.

Variable W : Type.
Variables CANVAS_URL_BEGIN ASSIGNMENT_GROUP_NAME ASSIGNMENT_NAME : list Z.
Variable client : request -> W -> option response * W.
Variable COL_COURSE_ID : list Z.

Local Abbreviation CLEAN := (_clean_up_ipe_dataframe W COL_COURSE_ID).

Lemma nth_error_replace_nth_same {A} (l : list A) n x d :
  nth_error l n = Some d -> nth_error (replace_nth l n x) n = Some x.
Proof.
  revert n. induction l as [| y r IH]; intros [| n] H; simpl in *; try discriminate; auto.
Qed.

Lemma nth_error_replace_nth_other {A} (l : list A) n m x :
  m <> n -> nth_error (replace_nth l n x) m = nth_error l m.
Proof.
  revert n m. induction l as [| y r IH]; intros [| n] [| m] H; simpl; auto; try congruence.
Qed.

Lemma replace_nth_length {A} (l : list A) n x : List.length (replace_nth l n x) = List.length l.
Proof. revert n. induction l as [| y r IH]; intros [| n]; simpl; auto. Qed.

(** The run of [_clean_up_ipe_dataframe], case by case. *)
Lemma clean_eq s :
  CLEAN s =
  match nth_error (st_heap s) (orginal_df (st_self s)) with
  | None =>
      (Exc (SystemExit 1),
       mk_state (st_world s) (st_calls s)
         (st_logs s ++ [LogError "Error in clean_up_ipe_dataframe: " AttributeError])
         (st_heap s) (st_self s))
  | Some d =>
      let d1 := mk_dataframe (df_columns_strip (df_columns d)) (df_rows d) in
      let h1 := replace_nth (st_heap s) (orginal_df (st_self s)) d1 in
      match index_of COL_COURSE_ID (df_columns d1) with
      | None =>
          (Exc (SystemExit 1),
           mk_state (st_world s) (st_calls s)
             (st_logs s ++ [LogError "Error in clean_up_ipe_dataframe: "
                              (KeyError (JStr COL_COURSE_ID))])
             h1 (st_self s))
      | Some i =>
          (Ok tt,
           mk_state (st_world s) (st_calls s) (st_logs s)
             (h1 ++ [mk_dataframe (df_columns d1)
                       (filter (fun row => match nth_error row i with
                                           | Some v => is_course_id v
                                           | None => false
                                           end) (df_rows d))])
             (mk_orchestrator (orginal_df (st_self s)) (props (st_self s))
                (List.length (st_heap s))))
      end
  end.
Proof.
  unfold _clean_up_ipe_dataframe, try_except, bind, get_self, get_df.
  destruct (nth_error (st_heap s) (orginal_df (st_self s))) as [d |] eqn:E; [| reflexivity].
  unfold set_df, df_remove_non_course_id, bind, get_df. simpl.
  rewrite (nth_error_replace_nth_same _ _ _ _ E). simpl.
  destruct (index_of COL_COURSE_ID (df_columns_strip (df_columns d))); [| reflexivity].
  unfold alloc_df, set_self. simpl. rewrite replace_nth_length. reflexivity.
Qed.
Lemma load_rubric_mapping_class :
  load_global W "IPERubricDataMapping" = raise (NameError "IPERubricDataMapping").
Proof. reflexivity. Qed.

(** [getting_rubrics] raises before the fetch: every path through its
    [try] block ends in an exception, so its handler logs and exits. *)
Lemma rubrics_exit (fetch : json -> json -> M W json) s :
  exists e, getting_rubrics W fetch s =
    (Exc (SystemExit 1),
     mk_state (st_world s) (st_calls s) (st_logs s ++ [LogError "Error in getting_rubrics: " e])
              (st_heap s) (st_self s)).
Proof.
  unfold getting_rubrics. rewrite load_rubric_mapping_class.
  unfold try_except, bind, get_self, lift, raise.
  destruct (py_getitem (props (st_self s)) (cp "rubric_account_id")) eqn:E1;
    [destruct (py_getitem (props (st_self s)) (cp "rubric_id")) eqn:E2 |];
    simpl; try (rewrite (py_getitem_exc _ _ _ E1)); try (rewrite (py_getitem_exc _ _ _ E2));
    eexists; reflexivity.
Qed.

Lemma rubrics_fetch_irrelevant (fetch fetch' : json -> json -> M W json) s :
  getting_rubrics W fetch' s = getting_rubrics W fetch s.
Proof.
  unfold getting_rubrics. rewrite load_rubric_mapping_class.
  unfold try_except, bind, get_self, lift, raise.
  destruct (py_getitem (props (st_self s)) (cp "rubric_account_id"));
    [destruct (py_getitem (props (st_self s)) (cp "rubric_id")) |]; reflexivity.
Qed.

Local Abbreviation SCP_WITH :=
  (start_composing_process W CANVAS_URL_BEGIN ASSIGNMENT_GROUP_NAME ASSIGNMENT_NAME client
     COL_COURSE_ID).

Lemma composing_eq (fetch : json -> json -> M W json) s :
  SCP_WITH fetch s =
  match CLEAN s with
  | (Ok _, s1) => (Exc (SystemExit 1), snd (getting_rubrics W fetch s1))
  | (Exc e, s1) => (Exc e, s1)
  end.
Proof.
  unfold start_composing_process, bind at 1. destruct (CLEAN s) as [[u | e] s1]; [| reflexivity].
  destruct (rubrics_exit fetch s1) as [e He]. unfold bind. rewrite He. reflexivity.
Qed.

(** C10. [_clean_up_ipe_dataframe] leaves these unchanged: the fields
    [orginal_df] and [props] of the orchestrator, the remote side, the
    calls, and every other DataFrame of the heap. The original DataFrame
    keeps its rows, and its labels are either unchanged or stripped. When
    cleaning succeeds, the labels are stripped. The filtered rows then sit
    in a fresh DataFrame that only [filter_df_course_ids] points to, and
    those rows come from the original ones. When cleaning fails, the
    orchestrator is unchanged. *)
Theorem clean_changes_only_columns_and_filter s :
  let s' := snd (CLEAN s) in
  let orig := orginal_df (st_self s) in
  orginal_df (st_self s') = orig /\ props (st_self s') = props (st_self s) /\
  st_world s' = st_world s /\ st_calls s' = st_calls s /\
  (forall l, l <> orig -> (l < List.length (st_heap s))%nat ->
             nth_error (st_heap s') l = nth_error (st_heap s) l) /\
  (forall d, nth_error (st_heap s) orig = Some d ->
     exists cols, nth_error (st_heap s') orig = Some (mk_dataframe cols (df_rows d)) /\
                  (cols = df_columns d \/ cols = df_columns_strip (df_columns d))) /\
  (fst (CLEAN s) = Ok tt ->
     filter_df_course_ids (st_self s') = List.length (st_heap s) /\
     exists d d',
       nth_error (st_heap s) orig = Some d /\
       nth_error (st_heap s') orig = Some (mk_dataframe (df_columns_strip (df_columns d)) (df_rows d)) /\
       nth_error (st_heap s') (List.length (st_heap s)) = Some d' /\
       df_columns d' = df_columns_strip (df_columns d) /\ incl (df_rows d') (df_rows d)) /\
  (fst (CLEAN s) <> Ok tt ->
     st_self s' = st_self s /\ List.length (st_heap s') = List.length (st_heap s)).
Proof.
  simpl. rewrite clean_eq.
  destruct (nth_error (st_heap s) (orginal_df (st_self s))) as [d |] eqn:E.
  - assert (Hlt : (orginal_df (st_self s) < List.length (st_heap s))%nat).
    { apply nth_error_Some. rewrite E. discriminate. }
    assert (Hsame : nth_error (replace_nth (st_heap s) (orginal_df (st_self s))
                      (mk_dataframe (df_columns_strip (df_columns d)) (df_rows d)))
                      (orginal_df (st_self s))
                    = Some (mk_dataframe (df_columns_strip (df_columns d)) (df_rows d)))
      by (eapply nth_error_replace_nth_same; exact E).
    simpl. destruct (index_of COL_COURSE_ID (df_columns_strip (df_columns d))) as [i |]; simpl.
    + split; [reflexivity |]. split; [reflexivity |]. split; [reflexivity |].
      split; [reflexivity |]. split.
      { intros l Hne Hl. rewrite nth_error_app1 by (rewrite replace_nth_length; exact Hl).
        apply nth_error_replace_nth_other. exact Hne. }
      split.
      { intros d0 E0. injection E0 as <-.
        exists (df_columns_strip (df_columns d)). split; [| right; reflexivity].
        rewrite nth_error_app1 by (rewrite replace_nth_length; exact Hlt). exact Hsame. }
      split; [| intros H; exfalso; apply H; reflexivity].
      intros _. split; [reflexivity |].
      eexists d, _. split; [reflexivity |].
      split; [rewrite nth_error_app1 by (rewrite replace_nth_length; exact Hlt); exact Hsame |].
      split.
      { rewrite nth_error_app2 by (rewrite replace_nth_length; apply Nat.le_refl).
        rewrite replace_nth_length, Nat.sub_diag. reflexivity. }
      split; [reflexivity |].
      intros row Hrow. apply filter_In in Hrow. tauto.
    + split; [reflexivity |]. split; [reflexivity |]. split; [reflexivity |].
      split; [reflexivity |]. split.
      { intros l Hne Hl. apply nth_error_replace_nth_other. exact Hne. }
      split.
      { intros d0 E0. injection E0 as <-.
        exists (df_columns_strip (df_columns d)). split; [exact Hsame | right; reflexivity]. }
      split; [intros H; discriminate H |].
      intros _. split; [reflexivity | apply replace_nth_length].
  - simpl. split; [reflexivity |]. split; [reflexivity |]. split; [reflexivity |].
    split; [reflexivity |]. split; [reflexivity |]. split; [intros d0 E0; discriminate E0 |].
    split; [intros H; discriminate H | auto].
Qed.

Variable fetch_rubric_api : json -> json -> M W json.

Local Abbreviation SCP := (SCP_WITH fetch_rubric_api).


Lemma clean_frame s :
  (fst (CLEAN s) = Ok tt \/ fst (CLEAN s) = Exc (SystemExit 1)) /\
  st_world (snd (CLEAN s)) = st_world s /\ st_calls (snd (CLEAN s)) = st_calls s /\
  exists es, st_logs (snd (CLEAN s)) = st_logs s ++ es /\ Forall is_log_error es.
Proof.
  rewrite clean_eq. destruct (nth_error (st_heap s) (orginal_df (st_self s))) as [d |].
  - simpl. destruct (index_of COL_COURSE_ID (df_columns_strip (df_columns d))); simpl.
    + split; [left; reflexivity |]. do 2 (split; [reflexivity |]).
      exists []. rewrite app_nil_r. split; [reflexivity | constructor].
    + split; [right; reflexivity |]. do 2 (split; [reflexivity |]).
      eexists. split; [reflexivity | repeat constructor].
  - simpl. split; [right; reflexivity |]. do 2 (split; [reflexivity |]).
    eexists. split; [reflexivity | repeat constructor].
Qed.

Lemma composing_exit s :
  fst (SCP s) = Exc (SystemExit 1) /\
  st_world (snd (SCP s)) = st_world s /\
  st_calls (snd (SCP s)) = st_calls s /\
  (exists es, st_logs (snd (SCP s)) = st_logs s ++ es /\ Forall is_log_error es).
Proof.
  destruct (clean_frame s) as [Hr [Hw [Hc [es [Hl Hes]]]]].
  rewrite composing_eq. destruct (CLEAN s) as [r s1]. simpl in Hr, Hw, Hc, Hl.
  destruct Hr as [-> | ->].
  - destruct (rubrics_exit fetch_rubric_api s1) as [e He]. rewrite He. simpl.
    split; [reflexivity |]. split; [exact Hw |]. split; [exact Hc |].
    exists (es ++ [LogError "Error in getting_rubrics: " e]). rewrite Hl, app_assoc.
    split; [reflexivity |]. apply Forall_app. split; [exact Hes | repeat constructor].
  - simpl. split; [reflexivity |]. split; [exact Hw |]. split; [exact Hc |]. exists es. auto.
Qed.

(** C3. [start_composing_process] always ends in [sys.exit(1)]. The
    rubric fetch is never reached, because [getting_rubrics] evaluates the
    unimported name [IPERubricDataMapping] first. So the result does not
    depend on [fetch_rubric_api]. No client call is made, the remote side is
    unchanged, and only error lines are logged, so no course's workflow
    runs. *)
Theorem composing_process_always_exits s :
  fst (SCP s) = Exc (SystemExit 1) /\
  st_world (snd (SCP s)) = st_world s /\
  st_calls (snd (SCP s)) = st_calls s /\
  (exists es, st_logs (snd (SCP s)) = st_logs s ++ es /\ Forall is_log_error es) /\
  (forall fetch' : json -> json -> M W json, SCP_WITH fetch' s = SCP s).
Proof.
  destruct (composing_exit s) as [H1 [H2 [H3 H4]]].
  split; [exact H1 |]. split; [exact H2 |]. split; [exact H3 |]. split; [exact H4 |].
  intros fetch'. rewrite !composing_eq.
  destruct (CLEAN s) as [[u | e] s1]; [| reflexivity].
  rewrite (rubrics_fetch_irrelevant fetch_rubric_api fetch'). reflexivity.
Qed.

(** C2. The per-course method [start_competencies_assigning_process]
    does catch every exception the workflow raises. But the batch loop
    calls it with two arguments: the row and [rubrics_data]. On a cleaned
    DataFrame with at least one row, the first call raises [TypeError]
    before any workflow runs. That error is not caught, so the remaining
    rows are never processed. Besides, [start_composing_process] never
    reaches the loop: it exits with status 1 without any client call. *)
Theorem batch_loop_aborts_on_first_course s l d rubrics_data :
  nth_error (st_heap s) l = Some d -> (0 < List.length (df_rows d))%nat ->
  df_apply_axis1 W
    (fun course => call_start_competencies_assigning_process W CANVAS_URL_BEGIN
                     ASSIGNMENT_GROUP_NAME ASSIGNMENT_NAME client COL_COURSE_ID
                     [course; rubrics_data]) l s = (Exc TypeError, s) /\
  (forall course s0,
     fst (start_competencies_assigning_process W CANVAS_URL_BEGIN ASSIGNMENT_GROUP_NAME
            ASSIGNMENT_NAME client COL_COURSE_ID course s0) = Ok tt) /\
  fst (SCP s) = Exc (SystemExit 1) /\
  st_calls (snd (SCP s)) = st_calls s /\
  (exists es, st_logs (snd (SCP s)) = st_logs s ++ es /\ Forall is_log_error es).
Proof.
  intros Hd Hrows. destruct (composing_exit s) as [H1 [_ [H3 H4]]].
  split.
  - unfold df_apply_axis1, bind, get_df. rewrite Hd.
    destruct (df_rows d) as [| row rest]; [simpl in Hrows; lia |]. reflexivity.
  - split; [apply start_competencies_catches |]. auto.
Qed.

End OrchestratorFacts.

(* ================================================================== *)
(** ** Edge behaviour of the workflow and of the batch step *)

Section FlowEdges.
Variable W : Type.
Variables CANVAS_URL_BEGIN ASSIGNMENT_GROUP_NAME ASSIGNMENT_NAME : list Z.
Variable client : request -> W -> option response * W.
Local Abbreviation SAF :=
  (start_assignment_flow W CANVAS_URL_BEGIN ASSIGNMENT_GROUP_NAME ASSIGNMENT_NAME client).

Lemma call_api_eq req s r w' :
  client req (st_world s) = (r, w') ->
  call_api W client req s =
  (Ok r, mk_state w' (st_calls s ++ [(req, r)]) (st_logs s) (st_heap s) (st_self s)).
Proof. intros H. unfold call_api. rewrite H. reflexivity. Qed.

Lemma bind_assoc {A B C} (m : M W A) (k1 : A -> M W B) (k2 : B -> M W C) s :
  bind (bind m k1) k2 s = bind m (fun a => bind (k1 a) k2) s.
Proof. unfold bind. destruct (m s) as [[a | e] s']; reflexivity. Qed.

Ltac run_step :=
  match goal with
  | |- bind (bind _ _) _ _ = _ => rewrite bind_assoc
  | |- bind (call_api _ _ _) _ _ = _ =>
      erewrite bind_Ok by (apply call_api_eq; eassumption)
  | |- bind (py_json_loads _ ?t) _ _ = _ =>
      match goal with H : json_loads t = Some _ |- _ => unfold py_json_loads at 1; rewrite H end
  | |- bind (scan_groups _ _ _ _ _ _ (_ :: _) _) _ _ = _ => cbn [scan_groups]
  | |- bind (lift (py_getitem (JObj ?kvs) ?k)) _ _ = _ =>
      match goal with H : dict_get kvs k = _ |- _ => unfold py_getitem at 1; rewrite H end
  | |- bind _ _ _ = _ => erewrite bind_Ok by (cbv beta; reflexivity)
  | |- bind _ _ _ = _ => erewrite bind_Exc by (cbv beta; reflexivity)
  end.

(** When the lookup response parses to a non-empty JSON object (such as
    an error body [{"errors": ...}] that the client passed on), iterating
    it yields its keys, which are strs, and [ag['name']] on a str raises
    [TypeError]. The run stops right after the lookup call, having logged
    only its start, and [start_assignment_flow] raises [TypeError]. *)
Theorem lookup_object_body_raises_type_error self s r w' k v kvs :
  client (lookup_ag_request CANVAS_URL_BEGIN self) (st_world s) = (Some r, w') ->
  json_loads (text r) = Some (JObj ((k, v) :: kvs)) ->
  SAF self s = (Exc TypeError,
     mk_state w' (st_calls s ++ [(lookup_ag_request CANVAS_URL_BEGIN self, Some r)])
       (st_logs s ++ [LogInfo (start_msg self)]) (st_heap s) (st_self s)).
Proof.
  intros Hc Hj. unfold start_assignment_flow.
  rewrite (bind_Ok W (log_info (start_msg self)) _ s tt (started W self s)) by reflexivity.
  rewrite try_reraise. unfold _look_up_ipe_assignment.
  repeat run_step. reflexivity.
Qed.

Local Abbreviation LOOKUP :=
  (_look_up_ipe_assignment W CANVAS_URL_BEGIN ASSIGNMENT_GROUP_NAME ASSIGNMENT_NAME client).

(** When no usable group was found and the group-creation response is a
    JSON object without ['id'] (for instance an error body), the run raises
    [KeyError('id')] right after that POST: no assignment is created and no
    rubric is attached. *)
Theorem group_response_without_id_raises_key_error self s v s1 r1 w1 kvs :
  LOOKUP self (started W self s) = (Ok v, s1) -> py_truthy v = false ->
  client (assignment_group_creation_request CANVAS_URL_BEGIN ASSIGNMENT_GROUP_NAME self)
    (st_world s1) = (Some r1, w1) ->
  json_loads (text r1) = Some (JObj kvs) -> dict_get kvs (cp "id") = None ->
  SAF self s =
  (Exc (KeyError (JStr (cp "id"))),
   mk_state w1 (st_calls s1 ++ [(assignment_group_creation_request CANVAS_URL_BEGIN
                                   ASSIGNMENT_GROUP_NAME self, Some r1)])
     (st_logs s1) (st_heap s1) (st_self s1)).
Proof.
  intros Hl Hv Hc Hj Hid. rewrite (flow_after_lookup W _ _ _ client _ _ _ _ Hl), Hv.
  cbn [negb]. unfold _create_assignment_group. repeat run_step. reflexivity.
Qed.

(** When the lookup found a group with a truthy id [v] and the
    assignment-creation response is a JSON object without ['id'], the run
    raises [KeyError('id')] right after that POST, without attaching any
    rubric. *)
Theorem assignment_response_without_id_raises_key_error self s v s1 r2 w2 kvs :
  LOOKUP self (started W self s) = (Ok v, s1) -> py_truthy v = true ->
  client (assignment_creation_request CANVAS_URL_BEGIN ASSIGNMENT_NAME self v)
    (st_world s1) = (Some r2, w2) ->
  json_loads (text r2) = Some (JObj kvs) -> dict_get kvs (cp "id") = None ->
  SAF self s =
  (Exc (KeyError (JStr (cp "id"))),
   mk_state w2 (st_calls s1 ++ [(assignment_creation_request CANVAS_URL_BEGIN
                                   ASSIGNMENT_NAME self v, Some r2)])
     (st_logs s1) (st_heap s1) (st_self s1)).
Proof.
  intros Hl Hv Hc Hj Hid. rewrite (flow_after_lookup W _ _ _ client _ _ _ _ Hl), Hv.
  cbn [negb]. rewrite (bind_Ok W (ret v) _ s1 v s1) by reflexivity.
  unfold _create_assignment. repeat run_step. reflexivity.
Qed.

(** When the first group whose trimmed name matches has a truthy id [g],
    a successful run creates no group: after the lookup and the deletions
    it makes exactly two calls, the assignment creation in group [g] and
    the rubric association for the returned assignment id. *)
Theorem found_group_reused self s r j gs g rest aid s' :
  fst (client (lookup_ag_request CANVAS_URL_BEGIN self) (st_world s)) = Some r ->
  json_loads (text r) = Some j -> py_iter j = Ok gs ->
  matching_group_ids ASSIGNMENT_GROUP_NAME gs = g :: rest -> py_truthy g = true ->
  SAF self s = (Ok aid, s') ->
  exists ds r2 r3,
    st_calls s' = st_calls s ++ (lookup_ag_request CANVAS_URL_BEGIN self, Some r) :: ds ++
      [(assignment_creation_request CANVAS_URL_BEGIN ASSIGNMENT_NAME self g, Some r2);
       (rubrics_creation_request CANVAS_URL_BEGIN self aid, Some r3)] /\
    map fst ds = map (delete_assignment_request CANVAS_URL_BEGIN self)
                     (stale_assignment_ids ASSIGNMENT_GROUP_NAME ASSIGNMENT_NAME gs) /\
    resp_id r2 aid.
Proof.
  intros Hr Hj Hgs Hm Ht H. apply flow_ok_trace in H.
  destruct H as [r' [j' [gs' [ds [pre [g' [r2 [r3 [Hr' [Hj' [Hgs' [Hd [_ [Hp [Hid Hc]]]]]]]]]]]]]]].
  destruct (lookup_response_unique W client _ _ _ _ _ _ _ _ Hr Hr' Hj Hj' Hgs Hgs')
    as [-> [-> ->]].
  unfold lookup_result in Hp. rewrite Hm in Hp.
  destruct Hp as [[_ [-> ->]] | [Hf _]]; [| rewrite Ht in Hf; discriminate Hf].
  exists ds, r2, r3. rewrite app_nil_l in Hc. auto.
Qed.

Variable COL_COURSE_ID : list Z.

(** When the course row has no [COL_COURSE_ID] entry, or the props no
    ['rubric_id'], [start_competencies_assigning_process] makes no client
    call, logs the [KeyError] (or [TypeError]) with [logger.error], and
    returns normally, leaving everything else as it was. *)
Theorem course_row_without_key_is_logged course s e :
  (py_getitem course COL_COURSE_ID = Exc e \/
   (exists c, py_getitem course COL_COURSE_ID = Ok c) /\
   py_getitem (props (st_self s)) (cp "rubric_id") = Exc e) ->
  start_competencies_assigning_process W CANVAS_URL_BEGIN ASSIGNMENT_GROUP_NAME ASSIGNMENT_NAME
    client COL_COURSE_ID course s =
  (Ok tt, mk_state (st_world s) (st_calls s) (st_logs s ++ [LogError EmptyString e])
            (st_heap s) (st_self s)).
Proof.
  intros H. unfold start_competencies_assigning_process, _create_delete_assignment,
    try_except, bind, lift, get_self.
  destruct H as [H | [[c Hc] H]].
  - rewrite H. rewrite (py_getitem_exc _ _ _ H). reflexivity.
  - rewrite Hc. simpl. rewrite H. rewrite (py_getitem_exc _ _ _ H). reflexivity.
Qed.

End FlowEdges.

(* ================================================================== *)
(** ** Which requests the workflow sends *)

Section Within.
Variable W : Type.
Variable P : request -> Prop.
Local Abbreviation CW := (@calls_within W _ P).

Lemma cw_none {A} (m : M W A) : (forall s, st_calls (snd (m s)) = st_calls s) -> CW m.
Proof. intros H s. exists []. rewrite app_nil_r. split; [apply H | constructor]. Qed.

Lemma cw_bind {A B} (m : M W A) (k : A -> M W B) :
  CW m -> (forall a, CW (k a)) -> CW (bind m k).
Proof.
  intros Hm Hk s. destruct (Hm s) as [cs1 [Hc1 Hf1]]. unfold bind.
  destruct (m s) as [[a | e] s1]; simpl in *.
  - destruct (Hk a s1) as [cs2 [Hc2 Hf2]]. exists (cs1 ++ cs2).
    rewrite Hc2, Hc1, app_assoc. split; [reflexivity | apply Forall_app; auto].
  - exists cs1. auto.
Qed.

Lemma cw_bind_lift {A B} (r : result A) (k : A -> M W B) :
  (forall a, r = Ok a -> CW (k a)) -> CW (bind (lift r) k).
Proof.
  intros Hk s. unfold bind, lift. destruct r as [a | e].
  - apply Hk. reflexivity.
  - exists []. rewrite app_nil_r. split; [reflexivity | constructor].
Qed.

Lemma cw_try {A} (m : M W A) (h : exn -> M W A) :
  CW m -> (forall e, CW (h e)) -> CW (try_except m h).
Proof.
  intros Hm Hh s. destruct (Hm s) as [cs1 [Hc1 Hf1]]. unfold try_except.
  destruct (m s) as [[a | e] s1]; simpl in *; [exists cs1; auto |].
  destruct (is_Exception e); [| exists cs1; auto].
  destruct (Hh e s1) as [cs2 [Hc2 Hf2]]. exists (cs1 ++ cs2).
  rewrite Hc2, Hc1, app_assoc. split; [reflexivity | apply Forall_app; auto].
Qed.

Lemma cw_call client req : P req -> CW (call_api W client req).
Proof.
  intros Hp s. exists [(req, fst (client req (st_world s)))]. unfold call_api.
  destruct (client req (st_world s)). split; [reflexivity | repeat constructor; exact Hp].
Qed.

Lemma cw_weaken {A} (Q : request -> Prop) (m : M W A) :
  (forall req, Q req -> P req) -> calls_within Q m -> CW m.
Proof.
  intros HQ Hm s. destruct (Hm s) as [cs [Hc Hf]]. exists cs. split; [exact Hc |].
  eapply Forall_impl; [| exact Hf]. intros c. apply HQ.
Qed.

End Within.

Ltac cw_solve :=
  repeat match goal with
  | |- calls_within _ (bind (lift _) _) => apply cw_bind_lift; intros ? ?
  | |- calls_within _ (bind _ _) => apply cw_bind; [| intro]
  | |- calls_within _ (try_except _ _) => apply cw_try; [| intro]
  | |- calls_within _ (call_api _ _ _) => apply cw_call
  | |- calls_within _ (if ?b then _ else _) => destruct b
  | |- calls_within _ (ret _) => apply cw_none; reflexivity
  | |- calls_within _ (raise _) => apply cw_none; reflexivity
  | |- calls_within _ (lift _) => apply cw_none; reflexivity
  | |- calls_within _ (log_info _) => apply cw_none; reflexivity
  | |- calls_within _ (log_error _ _) => apply cw_none; reflexivity
  | |- calls_within _ get_self => apply cw_none; reflexivity
  | |- calls_within _ (response_none_check _ ?r _) => destruct r; apply cw_none; reflexivity
  | |- calls_within _ (resp_text _ ?r) => destruct r; apply cw_none; reflexivity
  | |- calls_within _ (py_json_loads _ ?t) =>
      unfold py_json_loads; destruct (json_loads t); apply cw_none; reflexivity
  end.

Section Confined.
Variable W : Type.
Variables CANVAS_URL_BEGIN ASSIGNMENT_GROUP_NAME ASSIGNMENT_NAME : list Z.
Variable client : request -> W -> option response * W.
Variable COL_COURSE_ID : list Z.

Local Abbreviation STEP := (step_error CANVAS_URL_BEGIN ASSIGNMENT_GROUP_NAME ASSIGNMENT_NAME).

Lemma cw_flow self :
  calls_within (fun req => exists msg, STEP self req msg)
    (start_assignment_flow W CANVAS_URL_BEGIN ASSIGNMENT_GROUP_NAME ASSIGNMENT_NAME client self).
Proof.
  assert (Hdel : forall aid, calls_within (fun req => exists msg, STEP self req msg)
                   (_delete_assignment W CANVAS_URL_BEGIN client self aid)).
  { intros aid. unfold _delete_assignment. cw_solve; eexists; constructor. }
  assert (Hsa : forall items, calls_within (fun req => exists msg, STEP self req msg)
                  (scan_assignments W CANVAS_URL_BEGIN ASSIGNMENT_NAME client self items)).
  { induction items; simpl; cw_solve; auto. }
  assert (Hsg : forall ags acc, calls_within (fun req => exists msg, STEP self req msg)
                  (scan_groups W CANVAS_URL_BEGIN ASSIGNMENT_GROUP_NAME ASSIGNMENT_NAME
                     client self ags acc)).
  { induction ags; intros acc; simpl; cw_solve; auto. }
  unfold start_assignment_flow, _look_up_ipe_assignment, _create_assignment_group,
    _create_assignment, _assign_ipe_rubrics.
  cw_solve; auto; eexists; constructor.
Qed.

Lemma step_error_url self req msg :
  STEP self req msg ->
  exists tail, req_url req = Fmt (JStr CANVAS_URL_BEGIN) :: Lit "/courses/" :: Fmt (course_id self) :: tail.
Proof. intros H. inversion H; eexists; reflexivity. Qed.

(** Whatever the client answers, every request [start_assignment_flow]
    sends is one of its five step requests (lookup, delete, create group,
    create assignment, attach rubric) for its own course, and its URL starts
    with [CANVAS_URL_BEGIN/courses/<course_id>]. Processing a course row
    sends only such requests for the course id read from that row. *)
Theorem workflow_requests_stay_in_course :
  (forall self s, exists cs,
     st_calls (snd (start_assignment_flow W CANVAS_URL_BEGIN ASSIGNMENT_GROUP_NAME
                      ASSIGNMENT_NAME client self s)) = st_calls s ++ cs /\
     Forall (fun c => (exists msg, STEP self (fst c) msg) /\
                      exists tail, req_url (fst c) =
                        Fmt (JStr CANVAS_URL_BEGIN) :: Lit "/courses/" :: Fmt (course_id self) :: tail) cs) /\
  (forall course s, exists cs,
     st_calls (snd (start_competencies_assigning_process W CANVAS_URL_BEGIN ASSIGNMENT_GROUP_NAME
                      ASSIGNMENT_NAME client COL_COURSE_ID course s)) = st_calls s ++ cs /\
     Forall (fun c => exists cid rid msg, py_getitem course COL_COURSE_ID = Ok cid /\
                        STEP (mk_flow rid cid) (fst c) msg) cs).
Proof.
  split.
  - intros self s. destruct (cw_flow self s) as [cs [Hc Hf]]. exists cs. split; [exact Hc |].
    eapply Forall_impl; [| exact Hf]. intros c [msg Hm]. split; [exists msg; exact Hm |].
    eapply step_error_url. exact Hm.
  - intros course.
    assert (H : calls_within (fun req => exists cid rid msg,
                                py_getitem course COL_COURSE_ID = Ok cid /\ STEP (mk_flow rid cid) req msg)
                  (start_competencies_assigning_process W CANVAS_URL_BEGIN ASSIGNMENT_GROUP_NAME
                     ASSIGNMENT_NAME client COL_COURSE_ID course)).
    2: exact H.
    unfold start_competencies_assigning_process, _create_delete_assignment.
    cw_solve. eapply cw_weaken; [| apply cw_flow].
    intros req [msg Hm]. do 3 eexists. split; [eassumption | exact Hm].
Qed.

End Confined.

(* ================================================================== *)
(** ** The entry point never completes *)

Section MainFacts.
Variable W : Type.
Variables CANVAS_URL_BEGIN ASSIGNMENT_GROUP_NAME ASSIGNMENT_NAME : list Z.
Variable client : request -> W -> option response * W.
Variable COL_COURSE_ID : list Z.
Variable fetch_rubric_api : json -> json -> M W json.
Variable get_env_props : M W json.
Variable get_worksheet_instance : json -> M W nat.
Variable APIHandler_init : json -> M W unit.

Local Abbreviation MAIN := (main W CANVAS_URL_BEGIN ASSIGNMENT_GROUP_NAME ASSIGNMENT_NAME client
                              COL_COURSE_ID fetch_rubric_api get_env_props get_worksheet_instance
                              APIHandler_init).

(** [main] never returns normally, so ["IPE Process Completed...."] is
    never logged. Once the props, the worksheet and the API handler are
    obtained, it ends in [sys.exit(1)] without any client call of its own,
    logging only errors after that point. *)
Theorem main_never_completes s p s1 ws s2 u s3 :
  get_env_props (snd (log_info [Lit "IPE Process Starting...."] s)) = (Ok p, s1) ->
  get_worksheet_instance p s1 = (Ok ws, s2) ->
  APIHandler_init p s2 = (Ok u, s3) ->
  (forall s', exists e, fst (MAIN s') = Exc e) /\
  fst (MAIN s) = Exc (SystemExit 1) /\
  st_world (snd (MAIN s)) = st_world s3 /\
  st_calls (snd (MAIN s)) = st_calls s3 /\
  (exists es, st_logs (snd (MAIN s)) = st_logs s3 ++ es /\ Forall is_log_error es).
Proof.
  assert (Hscp : forall s0,
    (start_composing_process W CANVAS_URL_BEGIN ASSIGNMENT_GROUP_NAME ASSIGNMENT_NAME client
       COL_COURSE_ID fetch_rubric_api ;; log_info [Lit "IPE Process Completed...."]) s0 =
    start_composing_process W CANVAS_URL_BEGIN ASSIGNMENT_GROUP_NAME ASSIGNMENT_NAME client
       COL_COURSE_ID fetch_rubric_api s0).
  { intros s0. destruct (composing_exit W CANVAS_URL_BEGIN ASSIGNMENT_GROUP_NAME ASSIGNMENT_NAME
                           client COL_COURSE_ID fetch_rubric_api s0) as [H1 _].
    unfold bind at 1. destruct (start_composing_process _ _ _ _ _ _ _ s0) as [r s0'].
    simpl in H1. subst r. reflexivity. }
  assert (Hinit : forall p0 ws0 s0, exists s0',
    IPECompetenciesOrchestrator_init W p0 ws0 s0 = (Ok tt, s0')).
  { intros p0 ws0 s0. eexists. reflexivity. }
  intros H1 H2 H3. split.
  - intros s'. unfold main.
    rewrite (bind_Ok W _ _ s' tt (snd (log_info [Lit "IPE Process Starting...."] s')))
      by reflexivity.
    unfold bind at 1. destruct (get_env_props (snd (log_info [Lit "IPE Process Starting...."] s'))) as [[p' | e] s1']; [| eexists; reflexivity].
    unfold bind at 1. destruct (get_worksheet_instance p' s1') as [[ws' | e] s2'];
      [| eexists; reflexivity].
    unfold bind at 1. destruct (APIHandler_init p' s2') as [[u' | e] s3'];
      [| eexists; reflexivity].
    destruct (Hinit p' ws' s3') as [s4 Hs4]. rewrite (bind_Ok W _ _ _ _ _ Hs4), Hscp.
    destruct (composing_exit W CANVAS_URL_BEGIN ASSIGNMENT_GROUP_NAME ASSIGNMENT_NAME
                client COL_COURSE_ID fetch_rubric_api s4) as [He _].
    eexists. exact He.
  - unfold main.
    rewrite (bind_Ok W _ _ s tt (snd (log_info [Lit "IPE Process Starting...."] s)))
      by reflexivity.
    rewrite (bind_Ok W _ _ _ _ _ H1), (bind_Ok W _ _ _ _ _ H2), (bind_Ok W _ _ _ _ _ H3).
    destruct (Hinit p ws s3) as [s4 Hs4]. rewrite (bind_Ok W _ _ _ _ _ Hs4), Hscp.
    assert (E : st_world s4 = st_world s3 /\ st_calls s4 = st_calls s3 /\ st_logs s4 = st_logs s3).
    { unfold IPECompetenciesOrchestrator_init, bind, alloc_df, set_self in Hs4.
      injection Hs4 as <-. auto. }
    destruct E as [Ew [Ec El]].
    destruct (composing_exit W CANVAS_URL_BEGIN ASSIGNMENT_GROUP_NAME ASSIGNMENT_NAME
                client COL_COURSE_ID fetch_rubric_api s4) as [He [Hw [Hc [es [Hl Hes]]]]].
    split; [exact He |]. split; [rewrite Hw; exact Ew |]. split; [rewrite Hc; exact Ec |].
    exists es. rewrite Hl, El. auto.
Qed.
End MainFacts.

(* ================================================================== *)
(** ** Names are compared after [strip()] *)

Lemma list_Z_eqb_eq k k' : list_Z_eqb k k' = true <-> k = k'.
Proof. unfold list_Z_eqb. destruct (list_eq_dec Z.eq_dec k k'); split; congruence. Qed.

Lemma dict_get_pad_key k f kvs k' :
  dict_get (map (fun kv => if list_Z_eqb (fst kv) k then (fst kv, f (snd kv)) else kv) kvs) k' =
  match dict_get kvs k' with Some v => Some (if list_Z_eqb k' k then f v else v) | None => None end.
Proof.
  induction kvs as [| [k0 v0] rest IH]; [reflexivity |]. simpl.
  destruct (list_Z_eqb k0 k) eqn:E0; simpl.
  - destruct (list_Z_eqb k' k0) eqn:E1; [| exact IH].
    apply list_Z_eqb_eq in E1. subst k0. rewrite E0. reflexivity.
  - destruct (list_Z_eqb k' k0) eqn:E1; [| exact IH].
    apply list_Z_eqb_eq in E1. subst k0. rewrite E0. reflexivity.
Qed.

Lemma getitem_pad_key k f x k' :
  py_getitem (pad_key k f x) k' =
  match py_getitem x k' with Ok v => Ok (if list_Z_eqb k' k then f v else v) | Exc e => Exc e end.
Proof.
  destruct x; try reflexivity. simpl. rewrite dict_get_pad_key.
  destruct (dict_get kvs k'); reflexivity.
Qed.

Lemma lstrip_app_space a x : forallb py_isspace a = true -> lstrip (a ++ x) = lstrip x.
Proof.
  induction a as [| c r IH]; simpl; [reflexivity |].
  intros H. apply andb_prop in H. destruct H as [Hc Hr]. rewrite Hc. apply IH, Hr.
Qed.

Lemma lstrip_space_app x b :
  forallb py_isspace b = true ->
  lstrip (x ++ b) = match lstrip x with [] => [] | l => l ++ b end.
Proof.
  intros Hb. induction x as [| c r IH]; simpl.
  - rewrite <- (app_nil_r b), lstrip_app_space by exact Hb. reflexivity.
  - destruct (py_isspace c); [exact IH | reflexivity].
Qed.

Lemma str_strip_pad a n b :
  forallb py_isspace a = true -> forallb py_isspace b = true ->
  str_strip (a ++ n ++ b) = str_strip n.
Proof.
  intros Ha Hb. unfold str_strip. rewrite lstrip_app_space, lstrip_space_app by assumption.
  destruct (lstrip n) as [| y ys]; [reflexivity |].
  rewrite rev_app_distr, lstrip_app_space; [reflexivity |].
  rewrite forallb_forall in *. intros c Hc. apply Hb. apply in_rev. exact Hc.
Qed.

Lemma strip_pad a b v :
  forallb py_isspace a = true -> forallb py_isspace b = true ->
  py_strip (pad_str a b v) = py_strip v.
Proof. intros Ha Hb. destruct v; try reflexivity. simpl. rewrite str_strip_pad; auto. Qed.

Section Padding.
Variable W : Type.
Variables CANVAS_URL_BEGIN ASSIGNMENT_GROUP_NAME ASSIGNMENT_NAME : list Z.
Variable client : request -> W -> option response * W.
Variables a b : list Z.
Hypothesis Ha : forallb py_isspace a = true.
Hypothesis Hb : forallb py_isspace b = true.

Lemma bind_lift_Ok {A B} (v : A) (k : A -> M W B) s : bind (lift (Ok v)) k s = k v s.
Proof. reflexivity. Qed.

Lemma bind_lift_Exc {A B} e (k : A -> M W B) s : bind (lift (Exc e)) k s = (Exc e, s).
Proof. reflexivity. Qed.

Lemma bind_ext {A B} (m1 m2 : M W A) (k1 k2 : A -> M W B) s :
  (forall s, m1 s = m2 s) -> (forall x s, k1 x s = k2 x s) -> bind m1 k1 s = bind m2 k2 s.
Proof. intros Hm Hk. unfold bind. rewrite Hm. destruct (m2 s) as [[x | e] s']; auto. Qed.

Lemma scan_assignments_pad self items s :
  scan_assignments W CANVAS_URL_BEGIN ASSIGNMENT_NAME client self (map (pad_name a b) items) s =
  scan_assignments W CANVAS_URL_BEGIN ASSIGNMENT_NAME client self items s.
Proof.
  revert s. induction items as [| x rest IH]; intros s; [reflexivity |].
  cbn [map scan_assignments]. unfold pad_name. rewrite !getitem_pad_key.
  change (list_Z_eqb (cp "name") (cp "name")) with true.
  change (list_Z_eqb (cp "id") (cp "name")) with false.
  destruct (py_getitem x (cp "name")) as [v | e]; [| reflexivity].
  rewrite !bind_lift_Ok, strip_pad by assumption.
  destruct (py_strip v) as [st | e]; [| reflexivity].
  rewrite !bind_lift_Ok. apply bind_ext.
  - intros s'. destruct (list_Z_eqb st ASSIGNMENT_NAME); [| reflexivity].
    destruct (py_getitem x (cp "id")); reflexivity.
  - intros _ s'. apply IH.
Qed.

(** Padding the names of the groups in the lookup response, and of the
    assignments nested in them, with whitespace on either side changes
    nothing the lookup loop does: the same deletions, calls, logs and
    matched group ids, and the same errors. *)
Theorem lookup_ignores_name_padding self ags acc s :
  scan_groups W CANVAS_URL_BEGIN ASSIGNMENT_GROUP_NAME ASSIGNMENT_NAME client self
    (map (pad_group a b) ags) acc s =
  scan_groups W CANVAS_URL_BEGIN ASSIGNMENT_GROUP_NAME ASSIGNMENT_NAME client self ags acc s.
Proof.
  revert acc s. induction ags as [| g rest IH]; intros acc s; [reflexivity |].
  cbn [map scan_groups]. unfold pad_group, pad_name. rewrite !getitem_pad_key.
  change (list_Z_eqb (cp "name") (cp "name")) with true.
  change (list_Z_eqb (cp "name") (cp "assignments")) with false.
  change (list_Z_eqb (cp "assignments") (cp "assignments")) with true.
  change (list_Z_eqb (cp "assignments") (cp "name")) with false.
  change (list_Z_eqb (cp "id") (cp "name")) with false.
  change (list_Z_eqb (cp "id") (cp "assignments")) with false.
  destruct (py_getitem g (cp "name")) as [v | e]; [| reflexivity].
  rewrite !bind_lift_Ok, strip_pad by assumption.
  destruct (py_strip v) as [st | e]; [| reflexivity].
  rewrite !bind_lift_Ok. apply bind_ext.
  - intros s'. destruct (list_Z_eqb st ASSIGNMENT_GROUP_NAME); [| reflexivity].
    destruct (py_getitem g (cp "assignments")) as [asg | e]; [| reflexivity].
    rewrite !bind_lift_Ok.
    assert (Hit : py_iter (match asg with JArr l => JArr (map (pad_name a b) l) | _ => asg end)
                  = match py_iter asg with Ok l => Ok (map (pad_name a b) l) | Exc e => Exc e end)
      by (destruct asg; try reflexivity; simpl; f_equal; rewrite map_map; apply map_ext; reflexivity).
    fold (pad_name a b). rewrite Hit. destruct (py_iter asg) as [items | e]; [| reflexivity].
    rewrite !bind_lift_Ok. apply bind_ext; [apply scan_assignments_pad |].
    intros _ s''. destruct (py_getitem g (cp "id")); reflexivity.
  - intros acc' s'. apply IH.
Qed.
End Padding.

(** C1. [check_if_response_successful] returns true exactly when the
    body parses as JSON, and the status code does not matter. On the test
    inputs, it returns true for 200 with [{"success": true}] and for 400
    with [{"success": false}]. It returns false for 200 with the
    unparseable [{"success": True]. *)
Theorem check_if_response_successful_iff_json :
  (forall r, APIHandler.check_if_response_successful r = true <->
             exists v, json_loads (text r) = Some v) /\
  (forall r code, APIHandler.check_if_response_successful (mk_response code (text r)) =
                  APIHandler.check_if_response_successful r) /\
  APIHandler.check_if_response_successful (mk_response 200 (jtext "{'success': true}")) = true /\
  APIHandler.check_if_response_successful (mk_response 400 (jtext "{'success': false}")) = true /\
  APIHandler.check_if_response_successful (mk_response 200 (jtext "{'success': True")) = false.
Proof.
  split; [| split; [| split; [| split]]]; try reflexivity.
  - intros r. unfold APIHandler.check_if_response_successful.
    destruct (json_loads (text r)) as [v |]; split.
    + intros _. exists v. reflexivity.
    + reflexivity.
    + discriminate.
    + intros [v H]. discriminate H.
Qed.


(** C8. Record every attempt of [api_call_with_retries]. It makes at
    most [MAX_ATTEMPT_NUM] attempts. When every attempt is classified
    unsuccessful, it returns [None] rather than raising. It returns [None]
    only after exactly [MAX_ATTEMPT_NUM] attempts that all failed.
    Otherwise it returns the first successful response. *)
Theorem retries_bounded_then_absent {S} (api_call : request -> S -> response * S)
  (MAX_ATTEMPT_NUM : nat) req s rs res s' rs' :
  APIHandler.api_call_with_retries (S * list response) (recording api_call) MAX_ATTEMPT_NUM
    req (s, rs) = (res, (s', rs')) ->
  exists attempts,
    rs' = rs ++ attempts /\ (List.length attempts <= MAX_ATTEMPT_NUM)%nat /\
    (rejected attempts = true -> res = None) /\
    match res with
    | None => rejected attempts = true /\ List.length attempts = MAX_ATTEMPT_NUM
    | Some r => APIHandler.check_if_response_successful r = true /\
                exists earlier, attempts = earlier ++ [r] /\ rejected earlier = true
    end.
Proof.
  unfold APIHandler.api_call_with_retries. revert s rs.
  induction MAX_ATTEMPT_NUM as [| n IH]; intros s rs H; simpl in H.
  - injection H as <- <- <-. exists []. rewrite app_nil_r. simpl. auto.
  - unfold recording in H. simpl in H. destruct (api_call req s) as [r s1].
    destruct (APIHandler.check_if_response_successful r) eqn:Ec.
    + injection H as <- <- <-. exists [r]. simpl. rewrite Ec. simpl.
      split; [reflexivity |]. split; [lia |]. split; [discriminate |].
      split; [reflexivity |]. exists []. auto.
    + destruct (IH _ _ H) as [att [Hr [Hl [Hrej Hm]]]].
      exists (r :: att). rewrite Hr, <- app_assoc. simpl.
      unfold rejected in *. simpl. rewrite Ec. simpl.
      split; [reflexivity |]. split; [lia |]. split; [exact Hrej |].
      destruct res as [r' |].
      * destruct Hm as [Hok [earlier [He Hrj]]]. split; [exact Hok |].
        exists (r :: earlier). rewrite He. simpl. rewrite Ec. auto.
      * destruct Hm as [Hm1 Hm2]. auto.
Qed.


(* ================================================================== *)
(** ** Runs on concrete inputs *)

Lemma absent_response_raises_step_error_witness :
  (st_calls (snd (start_assignment_flow unit Canvas.URL_BEGIN Canvas.GROUP_NAME Canvas.ASSIGNMENT
                    absent_client flow_111 (state0 tt)))
   = [] ++ lookup_absent
   /\ In (lookup_ag_request Canvas.URL_BEGIN flow_111, None) lookup_absent)
  /\ exists pre msg,
    lookup_absent = pre ++ [(lookup_ag_request Canvas.URL_BEGIN flow_111, (None : option response))] /\
    step_error Canvas.URL_BEGIN Canvas.GROUP_NAME Canvas.ASSIGNMENT flow_111
      (lookup_ag_request Canvas.URL_BEGIN flow_111) msg /\
    fst (start_assignment_flow unit Canvas.URL_BEGIN Canvas.GROUP_NAME Canvas.ASSIGNMENT
           absent_client flow_111 (state0 tt)) = Exc (WorkflowError msg) /\
    In (Fmt (course_id flow_111)) msg /\
    (forall aid, lookup_ag_request Canvas.URL_BEGIN flow_111 =
                 delete_assignment_request Canvas.URL_BEGIN flow_111 aid -> In (Fmt aid) msg) /\
    (forall aid, lookup_ag_request Canvas.URL_BEGIN flow_111 =
                 rubrics_creation_request Canvas.URL_BEGIN flow_111 aid ->
                 In (Fmt aid) msg /\ In (Fmt (rubric_id flow_111)) msg).
Proof.
  split; [split; [reflexivity | left; reflexivity] |].
  apply (absent_response_raises_step_error unit Canvas.URL_BEGIN Canvas.GROUP_NAME
           Canvas.ASSIGNMENT absent_client flow_111 (state0 tt) lookup_absent).
  - reflexivity.
  - left. reflexivity.
Defined.


Lemma lookup_returns_first_match_or_not_found_witness :
  _look_up_ipe_assignment Canvas.world Canvas.URL_BEGIN Canvas.GROUP_NAME Canvas.ASSIGNMENT
    Canvas.client (Canvas.flow 111 9)
    (started Canvas.world (Canvas.flow 111 9) (canvas_state (Canvas.course111 false)))
  = (Ok (JInt 5),
     snd (_look_up_ipe_assignment Canvas.world Canvas.URL_BEGIN Canvas.GROUP_NAME
            Canvas.ASSIGNMENT Canvas.client (Canvas.flow 111 9)
            (started Canvas.world (Canvas.flow 111 9) (canvas_state (Canvas.course111 false)))))
  /\ exists r j gs,
    fst (Canvas.client (lookup_ag_request Canvas.URL_BEGIN (Canvas.flow 111 9))
           (st_world (canvas_state (Canvas.course111 false)))) = Some r /\
    json_loads (text r) = Some j /\ py_iter j = Ok gs /\
    (forall i rest, matching_group_ids Canvas.GROUP_NAME gs = i :: rest -> JInt 5 = i) /\
    (matching_group_ids Canvas.GROUP_NAME gs = [] ->
     JInt 5 = JArr [] /\ py_truthy (JInt 5) = false /\
     start_assignment_flow Canvas.world Canvas.URL_BEGIN Canvas.GROUP_NAME Canvas.ASSIGNMENT
       Canvas.client (Canvas.flow 111 9) (canvas_state (Canvas.course111 false)) =
     (g <- _create_assignment_group Canvas.world Canvas.URL_BEGIN Canvas.GROUP_NAME Canvas.client
             (Canvas.flow 111 9) ;;
      aid <- _create_assignment Canvas.world Canvas.URL_BEGIN Canvas.ASSIGNMENT Canvas.client
               (Canvas.flow 111 9) g ;;
      _assign_ipe_rubrics Canvas.world Canvas.URL_BEGIN Canvas.client (Canvas.flow 111 9) aid ;;
      ret aid)
       (snd (_look_up_ipe_assignment Canvas.world Canvas.URL_BEGIN Canvas.GROUP_NAME
               Canvas.ASSIGNMENT Canvas.client (Canvas.flow 111 9)
               (started Canvas.world (Canvas.flow 111 9)
                  (canvas_state (Canvas.course111 false)))))).
Proof.
  assert (H : _look_up_ipe_assignment Canvas.world Canvas.URL_BEGIN Canvas.GROUP_NAME
                Canvas.ASSIGNMENT Canvas.client (Canvas.flow 111 9)
                (started Canvas.world (Canvas.flow 111 9) (canvas_state (Canvas.course111 false)))
              = (Ok (JInt 5),
                 snd (_look_up_ipe_assignment Canvas.world Canvas.URL_BEGIN Canvas.GROUP_NAME
                        Canvas.ASSIGNMENT Canvas.client (Canvas.flow 111 9)
                        (started Canvas.world (Canvas.flow 111 9)
                           (canvas_state (Canvas.course111 false))))))
    by (vm_compute; reflexivity).
  split; [exact H |].
  exact (lookup_returns_first_match_or_not_found Canvas.world Canvas.URL_BEGIN Canvas.GROUP_NAME
           Canvas.ASSIGNMENT Canvas.client (Canvas.flow 111 9)
           (canvas_state (Canvas.course111 false)) _ _ H).
Defined.

Local Abbreviation CSAF :=
  (start_assignment_flow Canvas.world Canvas.URL_BEGIN Canvas.GROUP_NAME Canvas.ASSIGNMENT
     Canvas.client).

Lemma stale_copies_deleted_before_creation_witness :
  CSAF (Canvas.flow 111 9) (canvas_state (Canvas.course111 false))
  = (Ok (JInt 20), snd (CSAF (Canvas.flow 111 9) (canvas_state (Canvas.course111 false))))
  /\ exists r j gs ds pre g r2 r3,
    fst (Canvas.client (lookup_ag_request Canvas.URL_BEGIN (Canvas.flow 111 9))
           (st_world (canvas_state (Canvas.course111 false)))) = Some r /\
    json_loads (text r) = Some j /\ py_iter j = Ok gs /\
    map fst ds = map (delete_assignment_request Canvas.URL_BEGIN (Canvas.flow 111 9))
                     (stale_assignment_ids Canvas.GROUP_NAME Canvas.ASSIGNMENT gs) /\
    all_answered ds /\
    (pre = [] \/
     exists r1, pre = [(assignment_group_creation_request Canvas.URL_BEGIN Canvas.GROUP_NAME
                          (Canvas.flow 111 9), Some r1)]) /\
    st_calls (snd (CSAF (Canvas.flow 111 9) (canvas_state (Canvas.course111 false)))) =
      st_calls (canvas_state (Canvas.course111 false)) ++
      (lookup_ag_request Canvas.URL_BEGIN (Canvas.flow 111 9), Some r) :: ds ++ pre ++
      [(assignment_creation_request Canvas.URL_BEGIN Canvas.ASSIGNMENT (Canvas.flow 111 9) g,
        Some r2);
       (rubrics_creation_request Canvas.URL_BEGIN (Canvas.flow 111 9) (JInt 20), Some r3)].
Proof.
  assert (H : CSAF (Canvas.flow 111 9) (canvas_state (Canvas.course111 false))
              = (Ok (JInt 20),
                 snd (CSAF (Canvas.flow 111 9) (canvas_state (Canvas.course111 false)))))
    by (vm_compute; reflexivity).
  split; [exact H |].
  exact (stale_copies_deleted_before_creation Canvas.world Canvas.URL_BEGIN Canvas.GROUP_NAME
           Canvas.ASSIGNMENT Canvas.client (Canvas.flow 111 9)
           (canvas_state (Canvas.course111 false)) _ _ H).
Defined.

(** C5, counterexample: the service refuses the DELETE of the stale copy
    (403 with a JSON body, which the client classifies successful); the run
    still succeeds, and group 5 ends with two assignments named
    [IPE Competencies Attained]. *)
Lemma stale_copy_survives_successful_run :
  fst (CSAF (Canvas.flow 111 9) (canvas_state (Canvas.course111 true))) = Ok (JInt 20) /\
  Canvas.named_in_group 5 Canvas.ASSIGNMENT
    (st_world (snd (CSAF (Canvas.flow 111 9) (canvas_state (Canvas.course111 true))))) = 2%nat.
Proof. split; vm_compute; reflexivity. Qed.

Lemma fresh_course_three_creation_calls_witness :
  (fst (Canvas.client (lookup_ag_request Canvas.URL_BEGIN (Canvas.flow 222 9))
          (st_world (canvas_state (Canvas.mk_world [] 30 false))))
   = Some (Canvas.reply 200 (JArr [])) /\
   json_loads (text (Canvas.reply 200 (JArr []))) = Some (JArr []) /\
   py_iter (JArr []) = Ok [] /\
   matching_group_ids Canvas.GROUP_NAME [] = [] /\
   CSAF (Canvas.flow 222 9) (canvas_state (Canvas.mk_world [] 30 false))
   = (Ok (JInt 31), snd (CSAF (Canvas.flow 222 9) (canvas_state (Canvas.mk_world [] 30 false)))))
  /\ exists r1 g r2 r3,
    st_calls (snd (CSAF (Canvas.flow 222 9) (canvas_state (Canvas.mk_world [] 30 false)))) =
      st_calls (canvas_state (Canvas.mk_world [] 30 false)) ++
      [(lookup_ag_request Canvas.URL_BEGIN (Canvas.flow 222 9), Some (Canvas.reply 200 (JArr [])));
       (assignment_group_creation_request Canvas.URL_BEGIN Canvas.GROUP_NAME (Canvas.flow 222 9),
        Some r1);
       (assignment_creation_request Canvas.URL_BEGIN Canvas.ASSIGNMENT (Canvas.flow 222 9) g,
        Some r2);
       (rubrics_creation_request Canvas.URL_BEGIN (Canvas.flow 222 9) (JInt 31), Some r3)] /\
    req_method (assignment_group_creation_request Canvas.URL_BEGIN Canvas.GROUP_NAME
                  (Canvas.flow 222 9)) = "POST"%string /\
    req_payload (assignment_group_creation_request Canvas.URL_BEGIN Canvas.GROUP_NAME
                   (Canvas.flow 222 9))
      = Some (JObj [(cp "name", JStr Canvas.GROUP_NAME); (cp "position", JInt 2000)]) /\
    resp_id r1 g /\ resp_id r2 (JInt 31) /\
    req_payload (assignment_creation_request Canvas.URL_BEGIN Canvas.ASSIGNMENT
                   (Canvas.flow 222 9) g)
      = Some (assignment_payload Canvas.ASSIGNMENT g) /\
    req_payload (rubrics_creation_request Canvas.URL_BEGIN (Canvas.flow 222 9) (JInt 31))
      = Some (rubrics_payload (Canvas.flow 222 9) (JInt 31)).
Proof.
  assert (H1 : fst (Canvas.client (lookup_ag_request Canvas.URL_BEGIN (Canvas.flow 222 9))
                      (st_world (canvas_state (Canvas.mk_world [] 30 false))))
               = Some (Canvas.reply 200 (JArr []))) by (vm_compute; reflexivity).
  assert (H2 : json_loads (text (Canvas.reply 200 (JArr []))) = Some (JArr []))
    by (vm_compute; reflexivity).
  assert (H3 : py_iter (JArr []) = Ok []) by reflexivity.
  assert (H4 : matching_group_ids Canvas.GROUP_NAME [] = []) by reflexivity.
  assert (H5 : CSAF (Canvas.flow 222 9) (canvas_state (Canvas.mk_world [] 30 false))
               = (Ok (JInt 31),
                  snd (CSAF (Canvas.flow 222 9) (canvas_state (Canvas.mk_world [] 30 false)))))
    by (vm_compute; reflexivity).
  split; [auto |].
  exact (fresh_course_three_creation_calls Canvas.world Canvas.URL_BEGIN Canvas.GROUP_NAME
           Canvas.ASSIGNMENT Canvas.client (Canvas.flow 222 9)
           (canvas_state (Canvas.mk_world [] 30 false)) _ _ _ _ _ H1 H2 H3 H4 H5).
Defined.

Lemma zero_group_id_creates_new_group_witness :
  (fst (Canvas.client (lookup_ag_request Canvas.URL_BEGIN (Canvas.flow 333 9))
          (st_world (canvas_state course_zero)))
   = Some (Canvas.reply 200 (listing course_zero)) /\
   json_loads (text (Canvas.reply 200 (listing course_zero))) = Some (listing course_zero) /\
   py_iter (listing course_zero) = Ok (map Canvas.group_json (Canvas.groups course_zero)) /\
   matching_group_ids Canvas.GROUP_NAME (map Canvas.group_json (Canvas.groups course_zero))
     = [JInt 0] /\
   CSAF (Canvas.flow 333 9) (canvas_state course_zero)
   = (Ok (JInt 41), snd (CSAF (Canvas.flow 333 9) (canvas_state course_zero))))
  /\ exists ds r1 g r2 r3,
    st_calls (snd (CSAF (Canvas.flow 333 9) (canvas_state course_zero))) =
      st_calls (canvas_state course_zero) ++
      (lookup_ag_request Canvas.URL_BEGIN (Canvas.flow 333 9),
       Some (Canvas.reply 200 (listing course_zero))) :: ds ++
      [(assignment_group_creation_request Canvas.URL_BEGIN Canvas.GROUP_NAME (Canvas.flow 333 9),
        Some r1);
       (assignment_creation_request Canvas.URL_BEGIN Canvas.ASSIGNMENT (Canvas.flow 333 9) g,
        Some r2);
       (rubrics_creation_request Canvas.URL_BEGIN (Canvas.flow 333 9) (JInt 41), Some r3)] /\
    resp_id r1 g.
Proof.
  assert (H1 : fst (Canvas.client (lookup_ag_request Canvas.URL_BEGIN (Canvas.flow 333 9))
                      (st_world (canvas_state course_zero)))
               = Some (Canvas.reply 200 (listing course_zero))) by (vm_compute; reflexivity).
  assert (H2 : json_loads (text (Canvas.reply 200 (listing course_zero)))
               = Some (listing course_zero)) by (vm_compute; reflexivity).
  assert (H3 : py_iter (listing course_zero)
               = Ok (map Canvas.group_json (Canvas.groups course_zero))) by reflexivity.
  assert (H4 : matching_group_ids Canvas.GROUP_NAME
                 (map Canvas.group_json (Canvas.groups course_zero)) = [JInt 0])
    by (vm_compute; reflexivity).
  assert (H5 : CSAF (Canvas.flow 333 9) (canvas_state course_zero)
               = (Ok (JInt 41), snd (CSAF (Canvas.flow 333 9) (canvas_state course_zero))))
    by (vm_compute; reflexivity).
  split; [auto |].
  exact (proj2 (zero_group_id_creates_new_group Canvas.world Canvas.URL_BEGIN Canvas.GROUP_NAME
                  Canvas.ASSIGNMENT Canvas.client (Canvas.flow 333 9) (canvas_state course_zero)
                  _ _ _ [] H1 H2 H3 H4) _ _ H5).
Defined.

Lemma retries_bounded_then_absent_witness :
  APIHandler.api_call_with_retries (unit * list response) (recording mock_api_call) 3
    (lookup_ag_request Canvas.URL_BEGIN flow_111) (tt, [])
  = (Some (mk_response 200 (jtext "{'success': true}")),
     (tt, [mk_response 200 (jtext "{'success': true}")]))
  /\ exists attempts,
    [mk_response 200 (jtext "{'success': true}")] = [] ++ attempts /\
    (List.length attempts <= 3)%nat /\
    (rejected attempts = true -> Some (mk_response 200 (jtext "{'success': true}")) = None) /\
    APIHandler.check_if_response_successful (mk_response 200 (jtext "{'success': true}")) = true /\
    exists earlier, attempts = earlier ++ [mk_response 200 (jtext "{'success': true}")] /\
                    rejected earlier = true.
Proof.
  assert (H : APIHandler.api_call_with_retries (unit * list response) (recording mock_api_call) 3
                (lookup_ag_request Canvas.URL_BEGIN flow_111) (tt, [])
              = (Some (mk_response 200 (jtext "{'success': true}")),
                 (tt, [mk_response 200 (jtext "{'success': true}")]))) by reflexivity.
  split; [exact H |].
  exact (retries_bounded_then_absent mock_api_call 3 _ tt [] _ tt _ H).
Defined.

Lemma batch_loop_aborts_on_first_course_witness :
  (nth_error (st_heap batch_state) 1 = Some cleaned_courses /\
   (0 < List.length (df_rows cleaned_courses))%nat)
  /\ df_apply_axis1 Canvas.world
       (fun course => call_start_competencies_assigning_process Canvas.world Canvas.URL_BEGIN
                        Canvas.GROUP_NAME Canvas.ASSIGNMENT Canvas.client (cp "course_id")
                        [course; JObj []]) 1 batch_state = (Exc TypeError, batch_state)
  /\ (forall course s0,
        fst (start_competencies_assigning_process Canvas.world Canvas.URL_BEGIN Canvas.GROUP_NAME
               Canvas.ASSIGNMENT Canvas.client (cp "course_id") course s0) = Ok tt)
  /\ fst (start_composing_process Canvas.world Canvas.URL_BEGIN Canvas.GROUP_NAME
           Canvas.ASSIGNMENT Canvas.client (cp "course_id") fetch_stub batch_state)
     = Exc (SystemExit 1)
  /\ st_calls (snd (start_composing_process Canvas.world Canvas.URL_BEGIN Canvas.GROUP_NAME
                      Canvas.ASSIGNMENT Canvas.client (cp "course_id") fetch_stub batch_state))
     = st_calls batch_state
  /\ (exists es,
        st_logs (snd (start_composing_process Canvas.world Canvas.URL_BEGIN Canvas.GROUP_NAME
                        Canvas.ASSIGNMENT Canvas.client (cp "course_id") fetch_stub batch_state))
        = st_logs batch_state ++ es /\ Forall is_log_error es).
Proof.
  assert (H1 : nth_error (st_heap batch_state) 1 = Some cleaned_courses) by reflexivity.
  assert (H2 : (0 < List.length (df_rows cleaned_courses))%nat) by (simpl; lia).
  split; [split; assumption |].
  exact (batch_loop_aborts_on_first_course Canvas.world Canvas.URL_BEGIN Canvas.GROUP_NAME
           Canvas.ASSIGNMENT Canvas.client (cp "course_id") fetch_stub batch_state 1
           cleaned_courses (JObj []) H1 H2).
Defined.


(* ================================================================== *)
(** ** Runs of the extra properties on concrete inputs *)

Local Abbreviation RUN W c :=
  (start_assignment_flow W Canvas.URL_BEGIN Canvas.GROUP_NAME Canvas.ASSIGNMENT c).
Local Abbreviation LK W c :=
  (_look_up_ipe_assignment W Canvas.URL_BEGIN Canvas.GROUP_NAME Canvas.ASSIGNMENT c).

Lemma lookup_object_body_raises_type_error_witness :
  (refusing_client (lookup_ag_request Canvas.URL_BEGIN flow_111) (st_world (state0 tt))
     = (Some Canvas.forbidden, tt) /\
   json_loads (text Canvas.forbidden) = Some (JObj [(cp "errors", refusal_errors)])) /\
  RUN unit refusing_client flow_111 (state0 tt) =
  (Exc TypeError,
   mk_state tt (st_calls (state0 tt) ++
                [(lookup_ag_request Canvas.URL_BEGIN flow_111, Some Canvas.forbidden)])
     (st_logs (state0 tt) ++ [LogInfo (start_msg flow_111)])
     (st_heap (state0 tt)) (st_self (state0 tt))).
Proof.
  assert (H1 : refusing_client (lookup_ag_request Canvas.URL_BEGIN flow_111) (st_world (state0 tt))
               = (Some Canvas.forbidden, tt)) by reflexivity.
  assert (H2 : json_loads (text Canvas.forbidden) = Some (JObj [(cp "errors", refusal_errors)]))
    by (vm_compute; reflexivity).
  split; [split; assumption |].
  exact (lookup_object_body_raises_type_error unit Canvas.URL_BEGIN Canvas.GROUP_NAME
           Canvas.ASSIGNMENT refusing_client flow_111 (state0 tt) Canvas.forbidden tt
           (cp "errors") refusal_errors [] H1 H2).
Defined.

Lemma group_response_without_id_raises_key_error_witness :
  (LK unit (read_only_client []) flow_111 (started unit flow_111 (state0 tt)) =
     (Ok (JArr []), snd (LK unit (read_only_client []) flow_111 (started unit flow_111 (state0 tt)))) /\
   py_truthy (JArr []) = false /\
   read_only_client [] (assignment_group_creation_request Canvas.URL_BEGIN Canvas.GROUP_NAME flow_111)
     (st_world (snd (LK unit (read_only_client []) flow_111 (started unit flow_111 (state0 tt)))))
     = (Some Canvas.forbidden, tt) /\
   json_loads (text Canvas.forbidden) = Some (JObj [(cp "errors", refusal_errors)]) /\
   dict_get [(cp "errors", refusal_errors)] (cp "id") = None) /\
  RUN unit (read_only_client []) flow_111 (state0 tt) =
  (Exc (KeyError (JStr (cp "id"))),
   mk_state tt
     (st_calls (snd (LK unit (read_only_client []) flow_111 (started unit flow_111 (state0 tt))))
      ++ [(assignment_group_creation_request Canvas.URL_BEGIN Canvas.GROUP_NAME flow_111,
           Some Canvas.forbidden)])
     (st_logs (snd (LK unit (read_only_client []) flow_111 (started unit flow_111 (state0 tt)))))
     (st_heap (snd (LK unit (read_only_client []) flow_111 (started unit flow_111 (state0 tt)))))
     (st_self (snd (LK unit (read_only_client []) flow_111 (started unit flow_111 (state0 tt)))))).
Proof.
  assert (H1 : LK unit (read_only_client []) flow_111 (started unit flow_111 (state0 tt)) =
     (Ok (JArr []), snd (LK unit (read_only_client []) flow_111 (started unit flow_111 (state0 tt)))))
    by (vm_compute; reflexivity).
  assert (H2 : py_truthy (JArr []) = false) by reflexivity.
  assert (H3 : read_only_client []
                 (assignment_group_creation_request Canvas.URL_BEGIN Canvas.GROUP_NAME flow_111)
                 (st_world (snd (LK unit (read_only_client []) flow_111
                                   (started unit flow_111 (state0 tt)))))
               = (Some Canvas.forbidden, tt)) by (vm_compute; reflexivity).
  assert (H4 : json_loads (text Canvas.forbidden) = Some (JObj [(cp "errors", refusal_errors)]))
    by (vm_compute; reflexivity).
  assert (H5 : dict_get [(cp "errors", refusal_errors)] (cp "id") = None)
    by (vm_compute; reflexivity).
  split; [repeat (split; [assumption |]); assumption |].
  exact (group_response_without_id_raises_key_error unit Canvas.URL_BEGIN Canvas.GROUP_NAME
           Canvas.ASSIGNMENT (read_only_client []) flow_111 (state0 tt) _ _ _ _ _
           H1 H2 H3 H4 H5).
Defined.

Local Abbreviation LK5 :=
  (LK unit (read_only_client ipe_group5) flow_111 (started unit flow_111 (state0 tt))).

Lemma assignment_response_without_id_raises_key_error_witness :
  (LK5 = (Ok (JInt 5), snd LK5) /\
   py_truthy (JInt 5) = true /\
   read_only_client ipe_group5
     (assignment_creation_request Canvas.URL_BEGIN Canvas.ASSIGNMENT flow_111 (JInt 5))
     (st_world (snd LK5)) = (Some Canvas.forbidden, tt) /\
   json_loads (text Canvas.forbidden) = Some (JObj [(cp "errors", refusal_errors)]) /\
   dict_get [(cp "errors", refusal_errors)] (cp "id") = None) /\
  RUN unit (read_only_client ipe_group5) flow_111 (state0 tt) =
  (Exc (KeyError (JStr (cp "id"))),
   mk_state tt
     (st_calls (snd LK5) ++
      [(assignment_creation_request Canvas.URL_BEGIN Canvas.ASSIGNMENT flow_111 (JInt 5),
        Some Canvas.forbidden)])
     (st_logs (snd LK5)) (st_heap (snd LK5)) (st_self (snd LK5))).
Proof.
  assert (H1 : LK5 = (Ok (JInt 5), snd LK5)) by (vm_compute; reflexivity).
  assert (H2 : py_truthy (JInt 5) = true) by reflexivity.
  assert (H3 : read_only_client ipe_group5
                 (assignment_creation_request Canvas.URL_BEGIN Canvas.ASSIGNMENT flow_111 (JInt 5))
                 (st_world (snd LK5)) = (Some Canvas.forbidden, tt)) by (vm_compute; reflexivity).
  assert (H4 : json_loads (text Canvas.forbidden) = Some (JObj [(cp "errors", refusal_errors)]))
    by (vm_compute; reflexivity).
  assert (H5 : dict_get [(cp "errors", refusal_errors)] (cp "id") = None)
    by (vm_compute; reflexivity).
  split; [repeat (split; [assumption |]); assumption |].
  exact (assignment_response_without_id_raises_key_error unit Canvas.URL_BEGIN Canvas.GROUP_NAME
           Canvas.ASSIGNMENT (read_only_client ipe_group5) flow_111 (state0 tt) _ _ _ _ _
           H1 H2 H3 H4 H5).
Defined.

Local Abbreviation C111 :=
  (RUN Canvas.world Canvas.client (Canvas.flow 111 9) (canvas_state (Canvas.course111 false))).

Lemma found_group_reused_witness :
  (fst (Canvas.client (lookup_ag_request Canvas.URL_BEGIN (Canvas.flow 111 9))
          (st_world (canvas_state (Canvas.course111 false))))
     = Some (Canvas.reply 200 (listing (Canvas.course111 false))) /\
   json_loads (text (Canvas.reply 200 (listing (Canvas.course111 false))))
     = Some (listing (Canvas.course111 false)) /\
   py_iter (listing (Canvas.course111 false))
     = Ok (map Canvas.group_json (Canvas.groups (Canvas.course111 false))) /\
   matching_group_ids Canvas.GROUP_NAME
     (map Canvas.group_json (Canvas.groups (Canvas.course111 false))) = [JInt 5] /\
   py_truthy (JInt 5) = true /\
   C111 = (Ok (JInt 20), snd C111)) /\
  exists ds r2 r3,
    st_calls (snd C111) = st_calls (canvas_state (Canvas.course111 false)) ++
      (lookup_ag_request Canvas.URL_BEGIN (Canvas.flow 111 9),
       Some (Canvas.reply 200 (listing (Canvas.course111 false)))) :: ds ++
      [(assignment_creation_request Canvas.URL_BEGIN Canvas.ASSIGNMENT (Canvas.flow 111 9) (JInt 5),
        Some r2);
       (rubrics_creation_request Canvas.URL_BEGIN (Canvas.flow 111 9) (JInt 20), Some r3)] /\
    map fst ds = map (delete_assignment_request Canvas.URL_BEGIN (Canvas.flow 111 9))
                     (stale_assignment_ids Canvas.GROUP_NAME Canvas.ASSIGNMENT
                        (map Canvas.group_json (Canvas.groups (Canvas.course111 false)))) /\
    resp_id r2 (JInt 20).
Proof.
  assert (H1 : fst (Canvas.client (lookup_ag_request Canvas.URL_BEGIN (Canvas.flow 111 9))
                      (st_world (canvas_state (Canvas.course111 false))))
               = Some (Canvas.reply 200 (listing (Canvas.course111 false))))
    by (vm_compute; reflexivity).
  assert (H2 : json_loads (text (Canvas.reply 200 (listing (Canvas.course111 false))))
               = Some (listing (Canvas.course111 false))) by (vm_compute; reflexivity).
  assert (H3 : py_iter (listing (Canvas.course111 false))
               = Ok (map Canvas.group_json (Canvas.groups (Canvas.course111 false))))
    by reflexivity.
  assert (H4 : matching_group_ids Canvas.GROUP_NAME
                 (map Canvas.group_json (Canvas.groups (Canvas.course111 false))) = [JInt 5])
    by (vm_compute; reflexivity).
  assert (H5 : py_truthy (JInt 5) = true) by reflexivity.
  assert (H6 : C111 = (Ok (JInt 20), snd C111)) by (vm_compute; reflexivity).
  split; [repeat (split; [assumption |]); assumption |].
  exact (found_group_reused Canvas.world Canvas.URL_BEGIN Canvas.GROUP_NAME Canvas.ASSIGNMENT
           Canvas.client (Canvas.flow 111 9) (canvas_state (Canvas.course111 false)) _ _ _ _ _ _ _
           H1 H2 H3 H4 H5 H6).
Defined.

Lemma course_row_without_key_is_logged_witness :
  (py_getitem (JObj [(cp "Course", JStr (cp "123"))]) (cp "course_id")
     = Exc (KeyError (JStr (cp "course_id"))) \/
   (exists c, py_getitem (JObj [(cp "Course", JStr (cp "123"))]) (cp "course_id") = Ok c) /\
   py_getitem (props (st_self batch_state)) (cp "rubric_id")
     = Exc (KeyError (JStr (cp "course_id")))) /\
  start_competencies_assigning_process Canvas.world Canvas.URL_BEGIN Canvas.GROUP_NAME
    Canvas.ASSIGNMENT Canvas.client (cp "course_id") (JObj [(cp "Course", JStr (cp "123"))])
    batch_state =
  (Ok tt, mk_state (st_world batch_state) (st_calls batch_state)
            (st_logs batch_state ++ [LogError EmptyString (KeyError (JStr (cp "course_id")))])
            (st_heap batch_state) (st_self batch_state)).
Proof.
  assert (H : py_getitem (JObj [(cp "Course", JStr (cp "123"))]) (cp "course_id")
                = Exc (KeyError (JStr (cp "course_id")))) by (vm_compute; reflexivity).
  split; [left; exact H |].
  exact (course_row_without_key_is_logged Canvas.world Canvas.URL_BEGIN Canvas.GROUP_NAME
           Canvas.ASSIGNMENT Canvas.client (cp "course_id") _ batch_state _ (or_introl H)).
Defined.

Local Abbreviation MAIN0 :=
  (main Canvas.world Canvas.URL_BEGIN Canvas.GROUP_NAME Canvas.ASSIGNMENT Canvas.client
     (cp "course_id") fetch_stub (ret ipe_props) worksheet_stub (fun _ => ret tt)).
Local Abbreviation S1 :=
  (snd (log_info [Lit "IPE Process Starting...."] (canvas_state (Canvas.course111 false)))).

Lemma main_never_completes_witness :
  (ret ipe_props S1 = (Ok ipe_props, S1) /\
   worksheet_stub ipe_props S1 = (Ok 0%nat, snd (worksheet_stub ipe_props S1)) /\
   ret tt (snd (worksheet_stub ipe_props S1)) = (Ok tt, snd (worksheet_stub ipe_props S1))) /\
  (forall s', exists e, fst (MAIN0 s') = Exc e) /\
  fst (MAIN0 (canvas_state (Canvas.course111 false))) = Exc (SystemExit 1) /\
  st_world (snd (MAIN0 (canvas_state (Canvas.course111 false))))
    = st_world (snd (worksheet_stub ipe_props S1)) /\
  st_calls (snd (MAIN0 (canvas_state (Canvas.course111 false))))
    = st_calls (snd (worksheet_stub ipe_props S1)) /\
  (exists es, st_logs (snd (MAIN0 (canvas_state (Canvas.course111 false))))
              = st_logs (snd (worksheet_stub ipe_props S1)) ++ es /\ Forall is_log_error es).
Proof.
  assert (H1 : ret ipe_props S1 = (Ok ipe_props, S1)) by reflexivity.
  assert (H2 : worksheet_stub ipe_props S1 = (Ok 0%nat, snd (worksheet_stub ipe_props S1)))
    by (vm_compute; reflexivity).
  assert (H3 : ret tt (snd (worksheet_stub ipe_props S1)) = (Ok tt, snd (worksheet_stub ipe_props S1)))
    by reflexivity.
  split; [repeat (split; [assumption |]); assumption |].
  exact (main_never_completes Canvas.world Canvas.URL_BEGIN Canvas.GROUP_NAME Canvas.ASSIGNMENT
           Canvas.client (cp "course_id") fetch_stub (ret ipe_props) worksheet_stub
           (fun _ => ret tt) (canvas_state (Canvas.course111 false)) _ _ _ _ _ _ H1 H2 H3).
Defined.

Lemma lookup_ignores_name_padding_witness :
  (forallb py_isspace [32] = true /\ forallb py_isspace [9; 32] = true) /\
  scan_groups Canvas.world Canvas.URL_BEGIN Canvas.GROUP_NAME Canvas.ASSIGNMENT Canvas.client
    (Canvas.flow 111 9)
    (map (pad_group [32] [9; 32]) (map Canvas.group_json (Canvas.groups (Canvas.course111 false))))
    [] (canvas_state (Canvas.course111 false)) =
  scan_groups Canvas.world Canvas.URL_BEGIN Canvas.GROUP_NAME Canvas.ASSIGNMENT Canvas.client
    (Canvas.flow 111 9) (map Canvas.group_json (Canvas.groups (Canvas.course111 false)))
    [] (canvas_state (Canvas.course111 false)).
Proof.
  assert (Ha : forallb py_isspace [32] = true) by reflexivity.
  assert (Hb : forallb py_isspace [9; 32] = true) by reflexivity.
  split; [split; assumption |].
  exact (lookup_ignores_name_padding Canvas.world Canvas.URL_BEGIN Canvas.GROUP_NAME
           Canvas.ASSIGNMENT Canvas.client [32] [9; 32] Ha Hb (Canvas.flow 111 9) _ []
           (canvas_state (Canvas.course111 false))).
Defined.